(** * The CS5220 HW3 leaderboard: validator, metrics extractor, submission

    A shallow embedding of [src/app.py] and the properties its
    specification states about it.

    Conventions of the embedding:
    - a Python [str] is a [list ascii]; a character is a code point in
      U+0000..U+00FF;
    - a Python [float] is an IEEE-754 binary64 number, taken from
      [SpecFloat] at precision 53 and maximal exponent 1024;
    - a Python [dict] with string keys is a [gmap string _];
    - Python objects that are created and then mutated ([metrics = {}]
      followed by item assignments) live in a heap, and functions that can
      raise run in an exception monad over that heap. *)

From Stdlib Require Import ZArith Ascii String List Lia.
From Stdlib Require Import Floats.SpecFloat.
From stdpp Require Import base option list sorting gmap strings.

Local Open Scope Z_scope.

(** ** Text *)

Abbreviation text := (list ascii).

Definition str (s : string) : text := list_ascii_of_string s.

Definition code (c : ascii) : N := N_of_ascii c.

(** ** Python floats *)

Module PyFloat.

Definition prec : Z := 53.
Definition emax : Z := 1024.

Abbreviation float := spec_float.

Definition add : float -> float -> float := SFadd prec emax.
Definition mul : float -> float -> float := SFmul prec emax.
Definition div : float -> float -> float := SFdiv prec emax.
Definition ltb : float -> float -> bool := SFltb.

  (** [x > y] *)
Definition gtb (x y : float) : bool := ltb y x.

Definition is_zero (x : float) : bool :=
    match x with S754_zero _ => true | _ => false end.

  (** The value nearest to [m * 10^e] (ties to even), for [m > 0]: what a
      decimal literal with digits [m] and decimal exponent [e] denotes.  For
      [e >= 0] the integer [m * 10^e] is rounded; for [e < 0] the quotient of
      the integers [m] and [10^(-e)] is rounded, through the division
      algorithm of [SFdiv], which is exact on integers of any size. *)
Definition of_decimal (neg : bool) (m : positive) (e : Z) : float :=
    match e with
    | Zneg k =>
        div (S754_finite neg m 0) (S754_finite false (Pos.pow 10 k) 0)
    | _ => binary_round prec emax neg (m * Z.to_pos (10 ^ e))%positive 0
    end.

  (** The float of a Python [int] *)
Definition of_int (n : Z) : float := binary_normalize prec emax n 0 false.

Definition zero : float := S754_zero false.

  (** a finite value whose exponent is not below the exponent of the
      subnormal numbers *)
Definition in_range (x : float) : bool :=
    match x with
    | S754_finite _ _ e => emin prec emax <=? e
    | _ => true
    end.

End PyFloat.

(** the mantissa of a shift record has [k] binary digits, when [k > 0] *)
Definition has_digits (k : Z) (mrs : shr_record) : Prop :=
  0 < k -> exists m, shr_m mrs = Zpos m /\ Zpos (digits2_pos m) = k.

(** ** Character classes of Python's [re] on [str] patterns *)

(** [\s]: the characters for which [str.isspace] holds (below U+0100:
    TAB, LF, VT, FF, CR, FS, GS, RS, US, SPACE, NEL, NBSP) *)
Definition is_space (c : ascii) : bool :=
  let n := code c in
  ((9 <=? n) && (n <=? 13) || (28 <=? n) && (n <=? 32)
   || (n =? 133) || (n =? 160))%N.

(** [\S] *)
Definition is_nonspace (c : ascii) : bool := negb (is_space c).

(** [\d] (below U+0100 the decimal digits are 0..9) *)
Definition is_digit (c : ascii) : bool :=
  let n := code c in ((48 <=? n) && (n <=? 57))%N.

Definition is_char (a c : ascii) : bool := (code a =? code c)%N.

(** [[\d.eE+-]] *)
Definition is_numchar (c : ascii) : bool :=
  is_digit c || is_char "." c || is_char "e" c || is_char "E" c
  || is_char "+" c || is_char "-" c.

(** the newline character, [\n] *)
Definition nl : ascii := ascii_of_N 10.

(** ** Exceptions *)

Inductive exn : Type :=
  | ValueError
  | KeyError
  | IndexError
  | ZeroDivisionError.

(** ** [float(token)]

    The literal grammar of [float] on a string without surrounding
    whitespace and without letters other than [e] and [E]:
    [sign? (digits ('.' digits?)? | '.' digits) ([eE] sign? digits)?];
    anything else raises [ValueError].  The value is the correctly rounded
    decimal. *)

Fixpoint span (p : ascii -> bool) (s : text) : text * text :=
  match s with
  | c :: s' =>
      if p c then let '(a, b) := span p s' in (c :: a, b) else ([], s)
  | [] => ([], [])
  end.

Definition digit_value (c : ascii) : Z := Z.of_N (code c) - 48.

Definition digits_value (ds : text) : Z :=
  fold_left (fun acc c => 10 * acc + digit_value c) ds 0.

(** the sign prefix: [(negative, rest)] *)
Definition read_sign (s : text) : bool * text :=
  match s with
  | c :: s' =>
      if is_char "-" c then (true, s')
      else if is_char "+" c then (false, s') else (false, s)
  | [] => (false, s)
  end.

(** the exponent part, which must reach the end of the token *)
Definition read_exponent (s : text) : option Z :=
  match s with
  | [] => Some 0
  | c :: s' =>
      if is_char "e" c || is_char "E" c then
        let '(neg, s'') := read_sign s' in
        let '(ds, rest) := span is_digit s'' in
        match ds, rest with
        | _ :: _, [] => Some (if neg then - digits_value ds else digits_value ds)
        | _, _ => None
        end
      else None
  end.

Definition py_float (tok : text) : exn + PyFloat.float :=
  let '(neg, s) := read_sign tok in
  let '(ip, s1) := span is_digit s in
  let '(fp, s2) :=
    match s1 with
    | c :: s1' => if is_char "." c then span is_digit s1' else ([], s1)
    | [] => ([], s1)
    end in
  match ip ++ fp with
  | [] => inl ValueError
  | _ :: _ =>
      match read_exponent s2 with
      | None => inl ValueError
      | Some e =>
          inr match digits_value (ip ++ fp) with
              | Zpos m => PyFloat.of_decimal neg m (e - Z.of_nat (length fp))
              | _ => S754_zero neg
              end
      end
  end.

(** a float literal of the source text *)
Definition float_literal (s : string) : PyFloat.float :=
  match py_float (str s) with
  | inr x => x
  | inl _ => S754_nan
  end.

(** ** Regular expressions

    The patterns of the program use literals, greedy repetition of a
    character class, one lazy [.*?] and capture groups.  Each construct is a
    matcher in continuation-passing style: it consumes a prefix of the
    remaining text and hands the rest to its continuation; when the
    continuation fails it backtracks, in the order Python's [re] tries the
    alternatives. *)

Section Regex.
Context {R : Type}.

  (** a literal string *)
Fixpoint lit (l : text) (k : text -> option R) (s : text) : option R :=
    match l with
    | [] => k s
    | a :: l' =>
        match s with
        | c :: s' => if is_char a c then lit l' k s' else None
        | [] => None
        end
    end.

  (** [cls*], greedy: the longest run first, then shorter ones *)
Fixpoint star (cls : ascii -> bool) (k : text -> option R) (s : text)
    : option R :=
    match s with
    | c :: s' =>
        if cls c then
          match star cls k s' with
          | Some r => Some r
          | None => k s
          end
        else k s
    | [] => k s
    end.

  (** [(cls* )] with the characters consumed so far in [acc], greedy *)
Fixpoint star_group (cls : ascii -> bool) (acc : text)
    (k : text -> text -> option R) (s : text) : option R :=
    match s with
    | c :: s' =>
        if cls c then
          match star_group cls (acc ++ [c]) k s' with
          | Some r => Some r
          | None => k acc s
          end
        else k acc s
    | [] => k acc s
    end.

  (** [(cls+)], greedy; the continuation receives the group *)
Definition plus_group (cls : ascii -> bool) (k : text -> text -> option R)
    (s : text) : option R :=
    match s with
    | c :: s' => if cls c then star_group cls [c] k s' else None
    | [] => None
    end.

  (** [(.*?)] under [re.DOTALL], lazy: the shortest group first *)
Fixpoint lazy_group (acc : text) (k : text -> text -> option R) (s : text)
    : option R :=
    match k acc s with
    | Some r => Some r
    | None =>
        match s with
        | c :: s' => lazy_group (acc ++ [c]) k s'
        | [] => None
        end
    end.

  (** [re.search]: the match at the leftmost position that has one *)
Fixpoint search (p : text -> option R) (s : text) : option R :=
    match p s with
    | Some r => Some r
    | None =>
        match s with
        | _ :: s' => search p s'
        | [] => None
        end
    end.

End Regex.

(** [re.findall] for a pattern with one group: the groups of the
    non-overlapping matches, left to right.  The pattern returns its group
    and the text after the match; [skip] counts the characters of the last
    match that are still to be passed over. *)
Fixpoint findall_from (p : text -> option (text * text)) (skip : nat)
  (s : text) : list text :=
  match s with
  | [] =>
      match skip, p [] with
      | O, Some (g, _) => [g]
      | _, _ => []
      end
  | _ :: s' =>
      match skip with
      | S n => findall_from p n s'
      | O =>
          match p s with
          | Some (g, rest) =>
              g :: findall_from p (length s - length rest - 1) s'
          | None => findall_from p 0 s'
          end
      end
  end.

Definition findall (p : text -> option (text * text)) (s : text) : list text :=
  findall_from p 0 s.

(** *** The patterns of the program *)

(** [r"Simulation Time\s*=\s*([\d.eE+-]+)\s*seconds"] *)
Definition time_re (s : text) : option (text * text) :=
  lit (str "Simulation Time")
    (star is_space
      (lit (str "=")
        (star is_space
          (plus_group is_numchar (fun g =>
            star is_space
              (lit (str "seconds") (fun rest => Some (g, rest)))))))) s.

(** [r"--- NAME ---\n(.*?)--- END NAME ---"] under [re.DOTALL]: the
    literal before the group and the literal after it *)
Definition section_open (name : string) : text :=
  str "--- " ++ str name ++ str " ---" ++ [nl].
Definition section_close (name : string) : text :=
  str "--- END " ++ str name ++ str " ---".

Definition section_re (name : string) (s : text) : option text :=
  lit (section_open name)
    (lazy_group [] (fun g => lit (section_close name) (fun _ => Some g))) s.

Definition serial_re : text -> option text := section_re "SERIAL".
Definition scale_2m_re : text -> option text := section_re "SCALE_2M".

(** [r"FIELD:\s*(\S+)"] *)
Definition field_re (field : string) (s : text) : option text :=
  lit (str field)
    (star is_space (plus_group is_nonspace (fun g _ => Some g))) s.

Definition name_re : text -> option text := field_re "LEADERBOARD_NAME:".
Definition timestamp_re : text -> option text := field_re "TIMESTAMP:".

(** [needle in haystack] on strings *)
Definition contains (needle hay : text) : bool :=
  match search (lit needle (fun _ => Some tt)) hay with
  | Some _ => true
  | None => false
  end.

(** ** Occurrences of a string in a text *)

(** [p] occurs in [t] at offset [n] *)
Definition occurs_at (p : text) (n : nat) (t : text) : Prop :=
  exists rest, drop n t = p ++ rest.

(** [p] is a substring of [t] *)
Definition occurs (p t : text) : Prop := exists n, occurs_at p n t.

(** the leftmost occurrence of [p] in [t] is at offset [n] *)
Definition first_occurrence (p : text) (n : nat) (t : text) : Prop :=
  occurs_at p n t /\ forall k, (k < n)%nat -> ~ occurs_at p k t.

(** [t.find(p)]: the offset of the leftmost occurrence *)
Fixpoint find (p t : text) : option nat :=
  match lit p (fun _ => Some tt) t with
  | Some _ => Some 0%nat
  | None =>
      match t with
      | [] => None
      | _ :: t' => S <$> find p t'
      end
  end.

(** [t] begins, at offset [n], with [field], optional whitespace and the
    token [tok]: a maximal run of characters that are not whitespace *)
Definition field_at (field : text) (n : nat) (t : text) (tok : text) : Prop :=
  exists ws rest,
    drop n t = field ++ ws ++ tok ++ rest
    /\ Forall (fun c => is_space c = true) ws
    /\ tok <> []
    /\ Forall (fun c => is_space c = false) tok
    /\ match rest with [] => True | c :: _ => is_space c = true end.

(** ** Objects, the heap and the exception monad *)

(** a [dict] from metric names to floats *)
Abbreviation dict := (gmap string PyFloat.float).

(** The heap holds the [dict] objects; a reference is an index into it. *)
Abbreviation heap := (list dict).
Definition ref : Type := nat.

(** A computation reads and updates the heap and returns a value or
    raises. *)
Definition py (A : Type) : Type := heap -> (exn + A) * heap.

Definition raise {A} (e : exn) : py A := fun h => (inl e, h).

#[global] Instance py_mret : MRet py := fun A (a : A) h => (inr a, h).

#[global] Instance py_bind : MBind py := fun A B (f : A -> py B) (m : py A) h =>
  match m h with
  | (inr a, h') => f a h'
  | (inl e, h') => (inl e, h')
  end.

(** a pure computation that may raise *)
Definition lift {A} (r : exn + A) : py A :=
  match r with
  | inr a => mret a
  | inl e => raise e
  end.

(** [if c: body] *)
Definition when (c : bool) (body : py unit) : py unit :=
  if c then body else mret tt.

(** [a and b], which evaluates [b] only when [a] holds *)
Definition and_then (a b : py bool) : py bool :=
  a ≫= fun x : bool => if x then b else mret false.

(** [{}]: a new, empty dict *)
Definition new_dict : py ref := fun h => (inr (length h), h ++ [∅]).

(** [d[k] = v] *)
Definition setitem (d : ref) (k : string) (v : PyFloat.float) : py unit :=
  fun h => (inr tt, alter (fun m : dict => <[k := v]> m) d h).

(** [k in d] *)
Definition has_key (k : string) (d : ref) : py bool :=
  fun h => (inr (bool_decide (is_Some (h !! d ≫= fun m : dict => m !! k))), h).

(** [d[k]] *)
Definition getitem (d : ref) (k : string) : py PyFloat.float :=
  fun h =>
    match h !! d ≫= (fun m : dict => m !! k) with
    | Some v => (inr v, h)
    | None => (inl KeyError, h)
    end.

(** [l[i]] on a list *)
Definition index {A} (l : list A) (i : nat) : py A :=
  match l !! i with
  | Some a => mret a
  | None => raise IndexError
  end.

(** [x / y] on floats *)
Definition truediv (x y : PyFloat.float) : py PyFloat.float :=
  if PyFloat.is_zero y then raise ZeroDivisionError
  else mret (PyFloat.div x y).

(** ** The program *)

Definition HEADER : text := str "===== CS5220 HW3 LEADERBOARD SUBMISSION =====".
Definition FOOTER : text :=
  str "===== END CS5220 HW3 LEADERBOARD SUBMISSION =====".

(** [[f(x) for x in l]] for an [f] that may raise *)
Fixpoint map_raise {A B} (f : A -> exn + B) (l : list A) : exn + list B :=
  match l with
  | [] => inr []
  | a :: l' =>
      match f a with
      | inl e => inl e
      | inr b =>
          match map_raise f l' with
          | inl e => inl e
          | inr bs => inr (b :: bs)
          end
      end
  end.

Definition extract_times (section_text : text) : exn + list PyFloat.float :=
  map_raise py_float (findall time_re section_text).

(** The three blocks of [parse_output], named after the comments that
    open them in the source; [metrics] is the dict they fill. *)

(** [# Parse SERIAL section -> RS1e5] *)
Definition parse_serial (raw_output : text) (metrics : ref) : py unit :=
  match search serial_re raw_output with
  | Some group1 =>
      times ← lift (extract_times group1);
      when (bool_decide (times ≠ []))
        (t ← index times 0; setitem metrics "RS1e5" t)
  | None => mret tt
  end.

(** [# Parse SCALE_2M section -> PE1, PE2] *)
Definition parse_scale_2m (raw_output : text) (metrics : ref) : py unit :=
  match search scale_2m_re raw_output with
  | Some group1 =>
      times ← lift (extract_times group1);
      when (3 <=? length times)%nat
        (t64 ← index times 0;
         t128 ← index times 1;
         t256 ← index times 2;
         setitem metrics "T_2M_64" t64 ;;
         setitem metrics "T_2M_128" t128 ;;
         setitem metrics "T_2M_256" t256 ;;
         when (PyFloat.gtb t128 PyFloat.zero)
           (pe1 ← truediv t64 (PyFloat.mul (PyFloat.of_int 2) t128);
            setitem metrics "PE1" pe1) ;;
         when (PyFloat.gtb t256 PyFloat.zero)
           (pe2 ← truediv t128 (PyFloat.mul (PyFloat.of_int 2) t256);
            setitem metrics "PE2" pe2))
  | None => mret tt
  end.

(** [# Compute overall score] *)
Definition compute_overall (metrics : ref) : py unit :=
  c ← and_then (has_key "PE1" metrics)
        (and_then (has_key "PE2" metrics)
           (and_then (has_key "RS1e5" metrics)
              (x ← getitem metrics "RS1e5";
               mret (PyFloat.gtb x PyFloat.zero))));
  when c
    (x ← getitem metrics "RS1e5";
     rs ← truediv (float_literal "1.0") x;
     pe1 ← getitem metrics "PE1";
     pe2 ← getitem metrics "PE2";
     setitem metrics "overall"
       (PyFloat.add
          (PyFloat.add (PyFloat.mul pe1 (float_literal "0.4"))
                       (PyFloat.mul pe2 (float_literal "0.4")))
          (PyFloat.mul rs (float_literal "0.2")))).

Definition parse_output (raw_output : text) : py ref :=
  metrics ← new_dict;
  parse_serial raw_output metrics ;;
  parse_scale_2m raw_output metrics ;;
  compute_overall metrics ;;
  mret metrics.

(** What a caller of [parse_output] gets in heap [h]: the exception, or the
    contents of the returned dict. *)
Definition extract_in (h : heap) (raw_output : text) : exn + dict :=
  match parse_output raw_output h with
  | (inr d, h') => inr (default ∅ (h' !! d))
  | (inl e, _) => inl e
  end.

Definition extract (raw_output : text) : exn + dict := extract_in [] raw_output.

(** *** Validation *)

Definition MissingHeader : text := str "Missing header marker".
Definition MissingFooter : text := str "Missing footer marker".
Definition MissingName : text := str "Missing LEADERBOARD_NAME".

Definition validate_output (raw_output : text) : bool * text :=
  if negb (contains HEADER raw_output) then (false, MissingHeader)
  else if negb (contains FOOTER raw_output) then (false, MissingFooter)
  else
    match search name_re raw_output with
    | None => (false, MissingName)
    | Some group1 => (true, group1)
    end.

(** *** Submission *)

(** a row of the table [submissions]; the key [name] is the key of the map *)
Record row : Type := Row {
  row_timestamp : text;
  row_raw_output : text;
  row_metrics : dict
}.

Abbreviation table := (gmap text row).

(** the responses of [/api/submit] *)
Inductive response : Type :=
  | Rejected (status : Z) (error : text)
  | Accepted (name : text) (timestamp : text).

(** [submit], given the request body, the current UTC time in ISO format,
    the table and the heap: the response (or the exception that leaves the
    handler), the table and the heap afterwards.  The [metrics] column
    holds [json.dumps(metrics)], kept here as the mapping it encodes. *)
Definition submit (now : text) (raw_output : text) (db : table) (h : heap)
  : (exn + response) * table * heap :=
  let '(valid, result) := validate_output raw_output in
  if negb valid then (inr (Rejected 400 result), db, h)
  else
    let name := result in
    let timestamp :=
      match search timestamp_re raw_output with
      | Some group1 => group1
      | None => now
      end in
    match parse_output raw_output h with
    | (inl e, h') => (inl e, db, h')
    | (inr metrics, h') =>
        let row := Row timestamp raw_output (default ∅ (h' !! metrics)) in
        (inr (Accepted name timestamp), <[name := row]> db, h')
    end.

(** ** The extractor as a function on mappings

    The three blocks of [parse_output], each as a function from the
    contents of [metrics] before the block to its contents after it (or the
    exception the block raises).  [parse_output_run] below shows that
    [parse_output] computes their composition in a dict of its own. *)

Definition serial_stage (raw_output : text) (m : dict) : exn + dict :=
  match search serial_re raw_output with
  | None => inr m
  | Some group1 =>
      match extract_times group1 with
      | inl e => inl e
      | inr [] => inr m
      | inr (t :: _) => inr (<["RS1e5"%string := t]> m)
      end
  end.

(** [if den > 0: metrics[key] = num / (2 * den)] *)
Definition efficiency (key : string) (num den : PyFloat.float) (m : dict)
  : exn + dict :=
  if PyFloat.gtb den PyFloat.zero then
    if PyFloat.is_zero (PyFloat.mul (PyFloat.of_int 2) den)
    then inl ZeroDivisionError
    else inr (<[key := PyFloat.div num (PyFloat.mul (PyFloat.of_int 2) den)]> m)
  else inr m.

Definition scale_stage (raw_output : text) (m : dict) : exn + dict :=
  match search scale_2m_re raw_output with
  | None => inr m
  | Some group1 =>
      match extract_times group1 with
      | inl e => inl e
      | inr (t64 :: t128 :: t256 :: _) =>
          let m1 :=
            <["T_2M_256"%string := t256]>
              (<["T_2M_128"%string := t128]>
                 (<["T_2M_64"%string := t64]> m)) in
          match efficiency "PE1" t64 t128 m1 with
          | inl e => inl e
          | inr m2 => efficiency "PE2" t128 t256 m2
          end
      | inr _ => inr m
      end
  end.

Definition overall_score (pe1 pe2 rs1e5 : PyFloat.float) : PyFloat.float :=
  PyFloat.add
    (PyFloat.add (PyFloat.mul pe1 (float_literal "0.4"))
                 (PyFloat.mul pe2 (float_literal "0.4")))
    (PyFloat.mul (PyFloat.div (float_literal "1.0") rs1e5)
                 (float_literal "0.2")).

Definition overall_stage (m : dict) : dict :=
  match m !! "PE1"%string, m !! "PE2"%string, m !! "RS1e5"%string with
  | Some pe1, Some pe2, Some x =>
      if PyFloat.gtb x PyFloat.zero
      then <["overall"%string := overall_score pe1 pe2 x]> m
      else m
  | _, _, _ => m
  end.

Definition parse_metrics (raw_output : text) : exn + dict :=
  match serial_stage raw_output ∅ with
  | inl e => inl e
  | inr m1 =>
      match scale_stage raw_output m1 with
      | inl e => inl e
      | inr m2 => inr (overall_stage m2)
      end
  end.

(** ** The scans and what they record *)

(** The timing-value scan of a section of the text: [None] when the text has
    no such section, otherwise the values found or the exception raised. *)
Definition section_scan (name : string) (raw_output : text)
  : option (exn + list PyFloat.float) :=
  extract_times <$> search (section_re name) raw_output.

Definition serial_scan : text -> option (exn + list PyFloat.float) :=
  section_scan "SERIAL".
Definition scale_scan : text -> option (exn + list PyFloat.float) :=
  section_scan "SCALE_2M".

(** the values a scan found *)
Definition found (scan : option (exn + list PyFloat.float))
  : list PyFloat.float :=
  match scan with
  | Some (inr times) => times
  | _ => []
  end.

Definition record_serial (times : list PyFloat.float) (m : dict) : dict :=
  match times with
  | t :: _ => <["RS1e5"%string := t]> m
  | [] => m
  end.

Definition record_efficiency (key : string) (num den : PyFloat.float)
  (m : dict) : dict :=
  if PyFloat.gtb den PyFloat.zero
  then <[key := PyFloat.div num (PyFloat.mul (PyFloat.of_int 2) den)]> m
  else m.

Definition record_scale (times : list PyFloat.float) (m : dict) : dict :=
  match times with
  | t64 :: t128 :: t256 :: _ =>
      record_efficiency "PE2" t128 t256
        (record_efficiency "PE1" t64 t128
           (<["T_2M_256"%string := t256]>
              (<["T_2M_128"%string := t128]>
                 (<["T_2M_64"%string := t64]> m))))
  | _ => m
  end.

(** the mapping of a text whose scans found [serial] and [scale] *)
Definition metrics_of (serial scale : list PyFloat.float) : dict :=
  overall_stage (record_scale scale (record_serial serial ∅)).

(** the keys the scaling block writes *)
Definition scale_keys : list string :=
  ["T_2M_64"; "T_2M_128"; "T_2M_256"; "PE1"; "PE2"]%string.

(** [0.4*PE1 + 0.4*PE2 + 0.2*(1.0 / RS1e5)]: the formula of the
    specification, evaluated in binary64 *)
Definition spec_overall (pe1 pe2 rs1e5 : PyFloat.float) : PyFloat.float :=
  PyFloat.add
    (PyFloat.add (PyFloat.mul (float_literal "0.4") pe1)
                 (PyFloat.mul (float_literal "0.4") pe2))
    (PyFloat.mul (float_literal "0.2")
                 (PyFloat.div (float_literal "1.0") rs1e5)).

(** ** Reports used as examples *)

(** a line of a report *)
Definition line (s : string) : text := str s ++ [nl].

(** a complete report: serial time 120.5 s, scaling times 64.2, 30.1 and
    16.0 s, submitted by [alice] *)
Definition sample_report : text :=
  HEADER ++ [nl]
  ++ line "LEADERBOARD_NAME: alice"
  ++ line "--- SERIAL ---"
  ++ line "Simulation Time = 120.5 seconds"
  ++ line "--- END SERIAL ---"
  ++ line "--- SCALE_2M ---"
  ++ line "Simulation Time = 64.2 seconds"
  ++ line "Simulation Time = 30.1 seconds"
  ++ line "Simulation Time = 16.0 seconds"
  ++ line "--- END SCALE_2M ---"
  ++ FOOTER ++ [nl].

(** a scaling section with two timing lines *)
Definition two_timings_report : text :=
  line "--- SERIAL ---"
  ++ line "Simulation Time = 120.5 seconds"
  ++ line "--- END SERIAL ---"
  ++ line "--- SCALE_2M ---"
  ++ line "Simulation Time = 64.2 seconds"
  ++ line "Simulation Time = 30.1 seconds"
  ++ line "--- END SCALE_2M ---".

(** a scaling section whose timings are zero or negative *)
Definition zero_timings_report : text :=
  line "--- SCALE_2M ---"
  ++ line "Simulation Time = 3.5 seconds"
  ++ line "Simulation Time = 0 seconds"
  ++ line "Simulation Time = -1e-3 seconds"
  ++ line "--- END SCALE_2M ---".

(** a serial section whose number has two decimal points *)
Definition malformed_report : text :=
  HEADER ++ [nl]
  ++ line "LEADERBOARD_NAME: mallory"
  ++ line "--- SERIAL ---"
  ++ line "Simulation Time = 1.2.3 seconds"
  ++ line "--- END SERIAL ---"
  ++ FOOTER ++ [nl].

(** valid reports whose serial section holds a malformed number and whose
    scaling section holds three timings *)
Definition serial_malformed (token : string) (scale : list string) : text :=
  HEADER ++ [nl]
  ++ line "LEADERBOARD_NAME: mallory"
  ++ line "--- SERIAL ---"
  ++ line ("Simulation Time = " ++ token ++ " seconds")
  ++ line "--- END SERIAL ---"
  ++ line "--- SCALE_2M ---"
  ++ concat ((fun t : string => line ("Simulation Time = " ++ t ++ " seconds"))
               <$> scale)
  ++ line "--- END SCALE_2M ---"
  ++ FOOTER ++ [nl].

Definition serial_malformed_report : text :=
  serial_malformed "1.2.3" ["4"; "2"; "1"].
Definition serial_malformed_fast_report : text :=
  serial_malformed "1.2.3" ["64.2"; "30.1"; "16.0"].
Definition serial_malformed_zero_report : text :=
  serial_malformed "5e" ["3.5"; "0"; "-1e-3"].


(** a name field without whitespace after the colon *)
Definition tight_name_report : text :=
  HEADER ++ [nl] ++ line "LEADERBOARD_NAME:bob" ++ FOOTER ++ [nl].

(** the name pattern as the specification words it:
    [LEADERBOARD_NAME:] followed by whitespace, then a token:
    [r"LEADERBOARD_NAME:\s+(\S+)"] *)
Definition spec_name_re (s : text) : option text :=
  lit (str "LEADERBOARD_NAME:")
    (fun s1 =>
       match s1 with
       | c :: s2 =>
           if is_space c
           then star is_space (plus_group is_nonspace (fun g _ => Some g)) s2
           else None
       | [] => None
       end) s.

(** ** The leaderboard *)

(** *** Sorting, newest or best first

    [ORDER BY ... DESC] and [list.sort(reverse=True)] put an element before
    the elements it is not less than.  [sorted_desc lt l] is the stable
    one: elements of which neither is less than the other keep the order
    they have in [l].  That is the result of [list.sort(key=k, reverse=True)]
    for [lt a b := k a < k b], whenever [<] orders the keys totally (no key
    is a NaN). *)
Section Sorting.
Context {A : Type} (lt : A -> A -> bool).

Fixpoint insert_desc (x : A) (l : list A) : list A :=
  match l with
  | [] => [x]
  | y :: l' => if lt x y then y :: insert_desc x l' else x :: l
  end.

Definition sorted_desc (l : list A) : list A := foldr insert_desc [] l.

End Sorting.

(** The order of SQLite on [TEXT] values under the collation [BINARY]: the
    bytes of the UTF-8 encodings are compared, which orders two texts as
    their code points do, a proper prefix before the longer text. *)
Fixpoint text_ltb (a b : text) : bool :=
  match a, b with
  | _, [] => false
  | [], _ :: _ => true
  | x :: a', y :: b' =>
      if (code x <? code y)%N then true
      else if (code y <? code x)%N then false
      else text_ltb a' b'
  end.

(** *** The query of [leaderboard_data] *)

(** a row of [SELECT name, timestamp, metrics FROM submissions] *)
Record result_row : Type := ResultRow {
  col_name : text;
  col_timestamp : text;
  col_metrics : dict
}.

Definition select_columns (r : text * row) : result_row :=
  ResultRow r.1 (row_timestamp r.2) (row_metrics r.2).

(** [a] may stand before [b] under [ORDER BY timestamp DESC] *)
Definition newer_or_same (a b : result_row) : Prop :=
  text_ltb (col_timestamp a) (col_timestamp b) = false.

(** What SQL promises of the result of
    [SELECT name, timestamp, metrics FROM submissions ORDER BY timestamp DESC]:
    one row for each row of the table, in descending order of the
    timestamps; the order of rows with the same timestamp is not
    determined. *)
Definition query_result (db : table) (rows : list result_row) : Prop :=
  rows ≡ₚ select_columns <$> map_to_list db
  /\ StronglySorted newer_or_same rows.

(** one such result *)
Definition fetchall (db : table) : list result_row :=
  sorted_desc (fun a b => text_ltb (col_timestamp a) (col_timestamp b))
    (select_columns <$> map_to_list db).

(** *** [leaderboard_data] *)

(** an entry of the response: the dict with the keys [name], [timestamp] and
    [metrics] *)
Record entry : Type := Entry {
  entry_name : text;
  entry_timestamp : text;
  entry_metrics : dict
}.

(** the sort key, [e["metrics"].get("overall", 0)]; the integer [0] compares
    with a float as the float zero does *)
Definition score (e : entry) : PyFloat.float :=
  default PyFloat.zero (entry_metrics e !! "overall").

(** the body of the loop: the entry of a row; [json.loads] gives back the
    mapping that [submit] stored *)
Definition entry_of (r : result_row) : entry :=
  Entry (col_name r) (col_timestamp r) (col_metrics r).

(** [leaderboard_data], given the rows its query returned *)
Definition leaderboard_data (rows : list result_row) : list entry :=
  let entries := entry_of <$> rows in
  sorted_desc (fun a b => PyFloat.ltb (score a) (score b)) entries.

Definition is_nan (x : PyFloat.float) : bool :=
  match x with S754_nan => true | _ => false end.

(** the place of a float that is not a NaN in the order of the floats:
    class (infinities outermost, zeros in the middle), then exponent and
    mantissa, mirrored for negative numbers *)
Definition rank (x : PyFloat.float) : Z * Z * Z :=
  match x with
  | S754_nan => (0, 0, 0)
  | S754_zero _ => (0, 0, 0)
  | S754_infinity true => (-2, 0, 0)
  | S754_infinity false => (2, 0, 0)
  | S754_finite true m e => (-1, - e, - Zpos m)
  | S754_finite false m e => (1, e, Zpos m)
  end.

Definition rank_ltb (a b : Z * Z * Z) : bool :=
  let '(a1, a2, a3) := a in
  let '(b1, b2, b3) := b in
  (a1 <? b1) || (a1 =? b1) && ((a2 <? b2) || (a2 =? b2) && (a3 <? b3)).

(** *** Timing lines and sections, as the job script prints them *)

Definition timing_line (tok : text) : text :=
  str "Simulation Time = " ++ tok ++ str " seconds" ++ [nl].

Definition timing_lines (toks : list text) : text :=
  concat (timing_line <$> toks).

(** a token of the character class of the timing pattern *)
Definition is_token (tok : text) : Prop :=
  tok <> [] /\ Forall (fun c => is_numchar c = true) tok.

(** a timing token of the section [name] of [raw] that [float] rejects *)
Definition bad_token (name : string) (raw : text) : Prop :=
  exists sec tok,
    search (section_re name) raw = Some sec
    /\ tok ∈ findall time_re sec /\ py_float tok = inl ValueError.

(** the metric names that [parse_output] writes *)
Definition metric_keys : list string :=
  ["RS1e5"; "T_2M_64"; "T_2M_128"; "T_2M_256"; "PE1"; "PE2"; "overall"]%string.

(** a section of a report *)
Definition section_block (name : string) (body : text) : text :=
  section_open name ++ body ++ section_close name ++ [nl].

(** a report with a name, a timestamp and the two sections *)
Definition report (name timestamp : string) (serial scale : list string)
  : text :=
  HEADER ++ [nl]
  ++ line ("LEADERBOARD_NAME: " ++ name)
  ++ line ("TIMESTAMP: " ++ timestamp)
  ++ section_block "SERIAL" (timing_lines (str <$> serial))
  ++ section_block "SCALE_2M" (timing_lines (str <$> scale))
  ++ FOOTER ++ [nl].

(** the timestamp of a submission: the [TIMESTAMP:] field of the text, or
    the time of the request *)
Definition submission_timestamp (now raw_output : text) : text :=
  default now (search timestamp_re raw_output).

(** the table after a submission, whatever the response *)
Definition submitted (now raw_output : text) (db : table) : table :=
  (submit now raw_output db []).1.2.

(** a table with three submissions: [carol]'s has two scaling timings and
    so no overall score *)
Definition board : table :=
  submitted (str "2026-03-04T00:00:00+00:00")
    (report "carol" "2026-03-03T08:00:00" ["90.0"] ["50.0"; "25.0"])
    (submitted (str "2026-03-04T00:00:00+00:00")
       (report "bob" "2026-03-02T09:00:00" ["100.0"] ["60.0"; "30.0"; "15.0"])
       (submitted (str "2026-03-04T00:00:00+00:00")
          (report "alice" "2026-03-01T10:00:00" ["120.5"]
             ["64.2"; "30.1"; "16.0"])
          ∅)).

(** no stored score is a NaN *)
Definition no_nan_scores (db : table) : Prop :=
  forall n r v,
    db !! n = Some r -> row_metrics r !! "overall" = Some v -> is_nan v = false.

(** the same, as a check of the rows *)
Definition scores_are_numbers (db : table) : bool :=
  forallb (fun nr : text * row =>
             match row_metrics nr.2 !! "overall" with
             | Some v => negb (is_nan v)
             | None => true
             end) (map_to_list db).

(** [a] may stand before [b] on the leaderboard: [b]'s score is not greater,
    and when the scores are equal [b]'s timestamp is not greater *)
Definition ranks_before (a b : entry) : Prop :=
  PyFloat.ltb (score a) (score b) = false
  /\ (PyFloat.ltb (score b) (score a) = false ->
      text_ltb (entry_timestamp a) (entry_timestamp b) = false).

(** ** Sanity checks of the float layer *)

Example of_decimal_0_4 :
  PyFloat.of_decimal false 4 (-1) = S754_finite false 0x1999999999999a (-54).
Proof. vm_compute. reflexivity. Qed.

Example of_decimal_120_5 :
  PyFloat.of_decimal false 1205 (-1) = S754_finite false 0x1e200000000000 (-46).
Proof. vm_compute. reflexivity. Qed.

Example of_decimal_huge :
  PyFloat.of_decimal false 1 999 = S754_infinity false.
Proof. vm_compute. reflexivity. Qed.

Example of_decimal_tiny :
  PyFloat.of_decimal false 5 (-324) = S754_finite false 1 (-1074).
Proof. vm_compute. reflexivity. Qed.

Example of_decimal_tiny0 :
  PyFloat.of_decimal true 2 (-324) = S754_zero true.
Proof. vm_compute. reflexivity. Qed.

Example of_int_2 : PyFloat.of_int 2 = S754_finite false 0x10000000000000 (-51).
Proof. vm_compute. reflexivity. Qed.

Example py_float_120_5 :
  py_float (str "120.5") = inr (S754_finite false 0x1e200000000000 (-46)).
Proof. vm_compute. reflexivity. Qed.

Example py_float_exp :
  py_float (str "-1.5E+3") = inr (S754_finite true 0x17700000000000 (-42)).
Proof. vm_compute. reflexivity. Qed.

Example py_float_dot_only : py_float (str ".") = inl ValueError.
Proof. reflexivity. Qed.

Example py_float_two_dots : py_float (str "1.2.3") = inl ValueError.
Proof. reflexivity. Qed.

Example py_float_bare_exponent : py_float (str "5e") = inl ValueError.
Proof. reflexivity. Qed.

Example py_float_trailing_dot :
  py_float (str "1.") = inr (float_literal "1.0").
Proof. vm_compute. reflexivity. Qed.

Example py_float_minus_zero : py_float (str "-0") = inr (S754_zero true).
Proof. reflexivity. Qed.

(** ** Matching literals and searching *)

Lemma is_char_true a c : is_char a c = true <-> a = c.
Proof.
  unfold is_char, code. rewrite N.eqb_eq. split; [|congruence].
  intros H. rewrite <- (ascii_N_embedding a), <- (ascii_N_embedding c).
  congruence.
Qed.

Lemma is_char_refl a : is_char a a = true.
Proof. apply is_char_true. reflexivity. Qed.

Section Matching.
Context {R : Type}.
  Implicit Types (k : text -> option R) (p : text -> option R).

Lemma lit_app l k rest : lit l k (l ++ rest) = k rest.
  Proof.
    induction l as [|a l IH]; simpl; [reflexivity|].
    rewrite is_char_refl. exact IH.
  Qed.

Lemma lit_Some l k s r :
    lit l k s = Some r <-> exists rest, s = l ++ rest /\ k rest = Some r.
  Proof.
    split.
    - revert s. induction l as [|a l IH]; simpl; intros s H.
      + exists s. split; [reflexivity|exact H].
      + destruct s as [|c s]; [discriminate|].
        destruct (is_char a c) eqn:E; [|discriminate].
        apply is_char_true in E as ->.
        destruct (IH _ H) as (rest & -> & Hk). exists rest. split; [reflexivity|exact Hk].
    - intros (rest & -> & Hk). rewrite lit_app. exact Hk.
  Qed.

Lemma lit_no_prefix l k s :
    (forall rest, s <> l ++ rest) -> lit l k s = None.
  Proof.
    intros H. destruct (lit l k s) as [r|] eqn:E; [|reflexivity].
    apply lit_Some in E as (rest & -> & _). destruct (H rest). reflexivity.
  Qed.

Lemma search_first p s i r :
    (forall j, (j < i)%nat -> p (drop j s) = None) ->
    p (drop i s) = Some r ->
    search p s = Some r.
  Proof.
    revert s. induction i as [|i IH]; intros s Hlt Hi.
    - rewrite drop_0 in Hi. destruct s; simpl; rewrite Hi; reflexivity.
    - destruct s as [|c s].
      + simpl in *. rewrite Hi. reflexivity.
      + simpl. pose proof (Hlt 0%nat ltac:(lia)) as H0. simpl in H0.
        rewrite H0. apply IH.
        * intros j Hj. apply (Hlt (S j)). lia.
        * exact Hi.
  Qed.

Lemma search_Some p s r :
    search p s = Some r ->
    exists i, (i <= length s)%nat /\ p (drop i s) = Some r
              /\ forall j, (j < i)%nat -> p (drop j s) = None.
  Proof.
    induction s as [|c s IH]; simpl.
    - destruct (p []) eqn:E; [|discriminate]. intros [= ->].
      exists 0%nat. repeat split; [lia|exact E|lia].
    - destruct (p (c :: s)) eqn:E.
      + intros [= ->]. exists 0%nat. repeat split; [lia|exact E|lia].
      + intros H. destruct (IH H) as (i & Hle & Hi & Hlt).
        exists (S i). repeat split; [lia|exact Hi|].
        intros [|j] Hj; [exact E|]. apply Hlt. lia.
  Qed.

Lemma search_None p s :
    search p s = None <-> forall i, p (drop i s) = None.
  Proof.
    split.
    - induction s as [|c s IH]; simpl.
      + destruct (p []) eqn:E; [discriminate|]. intros _ i.
        rewrite drop_nil. exact E.
      + destruct (p (c :: s)) eqn:E; [discriminate|]. intros H [|i]; [exact E|].
        apply IH. exact H.
    - intros H. destruct (search p s) as [r|] eqn:E; [|reflexivity].
      apply search_Some in E as (i & _ & Hi & _). rewrite H in Hi. discriminate.
  Qed.

End Matching.

(** *** [in] on strings *)

Lemma contains_true needle hay :
  contains needle hay = true <-> occurs needle hay.
Proof.
  unfold contains, occurs, occurs_at. split.
  - destruct (search _ hay) as [[]|] eqn:E; [|discriminate]. intros _.
    apply search_Some in E as (i & _ & Hi & _).
    apply lit_Some in Hi as (rest & Hd & _). exists i, rest. exact Hd.
  - intros (n & rest & Hd).
    destruct (search _ hay) as [[]|] eqn:E; [reflexivity|].
    rewrite search_None in E. specialize (E n). rewrite Hd, lit_app in E.
    discriminate.
Qed.

Lemma contains_false needle hay :
  contains needle hay = false <-> ~ occurs needle hay.
Proof.
  rewrite <- contains_true. destruct (contains needle hay); split; congruence.
Qed.

#[global] Instance occurs_dec needle hay : Decision (occurs needle hay).
Proof.
  refine (cast_if (decide (contains needle hay = true)));
    abstract (rewrite <- contains_true; assumption).
Defined.

(** ** Occurrences, the lazy group and the section patterns *)

Lemma occurs_at_0 p t : occurs_at p 0 t <-> exists rest, t = p ++ rest.
Proof. unfold occurs_at. rewrite drop_0. reflexivity. Qed.

Lemma occurs_at_S p n c t : occurs_at p (S n) (c :: t) <-> occurs_at p n t.
Proof. reflexivity. Qed.

Lemma first_occurrence_S p n c t :
  first_occurrence p (S n) (c :: t) ->
  ~ occurs_at p 0 (c :: t) /\ first_occurrence p n t.
Proof.
  intros [Ho Hf]. split; [apply Hf; lia|]. split; [exact Ho|].
  intros k Hk. apply (Hf (S k)). lia.
Qed.


Lemma lazy_group_lit_None acc close s :
  ~ occurs close s ->
  lazy_group acc (fun g => lit close (fun _ => Some g)) s = None.
Proof.
  revert acc. induction s as [|c s IH]; intros acc H.
  - cbn [lazy_group]. rewrite lit_no_prefix; [reflexivity|].
    intros rest E. apply H. exists 0%nat. apply occurs_at_0. eauto.
  - cbn [lazy_group]. rewrite lit_no_prefix.
    + apply IH. intros [n Hn]. apply H. exists (S n). exact Hn.
    + intros rest E. apply H. exists 0%nat. apply occurs_at_0. eauto.
Qed.


(** ** Leftmost occurrences and the field patterns *)

Lemma find_Some p t n : find p t = Some n <-> first_occurrence p n t.
Proof.
  revert n. induction t as [|c t IH]; intros n; cbn [find].
  - destruct (lit p _ []) as [[]|] eqn:E.
    + apply lit_Some in E as (rest & E & _). split.
      * intros [= <-]. split; [exists rest; exact E|lia].
      * intros [_ Hf]. destruct n as [|n]; [reflexivity|].
        destruct (Hf 0%nat); [lia|]. exists rest. exact E.
    + split; [discriminate|]. intros [(rest & Hd) _]. rewrite drop_nil in Hd.
      rewrite Hd, lit_app in E. discriminate.
  - destruct (lit p _ (c :: t)) as [[]|] eqn:E.
    + apply lit_Some in E as (rest & E & _). split.
      * intros [= <-]. split; [exists rest; exact E|lia].
      * intros [_ Hf]. destruct n as [|n]; [reflexivity|].
        destruct (Hf 0%nat); [lia|]. exists rest. exact E.
    + assert (H0 : ~ occurs_at p 0 (c :: t)).
      { intros (rest & Hd). rewrite drop_0 in Hd. rewrite Hd, lit_app in E. discriminate. }
      split.
      * destruct (find p t) as [m|] eqn:F; [|discriminate]. intros [= <-].
        destruct (proj1 (IH m) eq_refl) as [Ho Hf]. split; [exact Ho|].
        intros [|k] Hk; [exact H0|]. apply Hf. lia.
      * destruct n as [|n]; [intros [Ho _]; destruct (H0 Ho)|].
        intros H. apply first_occurrence_S in H as [_ H].
        apply IH in H. rewrite H. reflexivity.
Qed.

#[global] Instance first_occurrence_dec p n t : Decision (first_occurrence p n t).
Proof.
  refine (cast_if (decide (find p t = Some n)));
    abstract (rewrite <- find_Some; assumption).
Defined.

Lemma span_app p s : s = (span p s).1 ++ (span p s).2.
Proof.
  induction s as [|c s IH]; simpl; [reflexivity|].
  destruct (p c); [|reflexivity].
  destruct (span p s) as [a b]. simpl in *. congruence.
Qed.

Lemma span_unique p a b :
  Forall (fun c => p c = true) a ->
  match b with [] => True | c :: _ => p c = false end ->
  span p (a ++ b) = (a, b).
Proof.
  intros Ha Hb. induction Ha as [|c a Hc Ha IH]; simpl.
  - destruct b as [|c b]; [reflexivity|]. simpl. rewrite Hb. reflexivity.
  - rewrite Hc, IH. reflexivity.
Qed.

Lemma span_fst_Forall p s : Forall (fun c => p c = true) (span p s).1.
Proof.
  induction s as [|c s IH]; simpl; [constructor|].
  destruct (p c) eqn:E; [|constructor].
  destruct (span p s) as [a b]. simpl in *. constructor; assumption.
Qed.

Lemma span_snd_head p s :
  match (span p s).2 with [] => True | c :: _ => p c = false end.
Proof.
  induction s as [|c s IH]; simpl; [exact I|].
  destruct (p c) eqn:E; [|exact E].
  destruct (span p s) as [a b]. exact IH.
Qed.

Lemma star_group_total {R} cls acc (k : text -> text -> option R) s :
  (forall g rest, is_Some (k g rest)) ->
  star_group cls acc k s = k (acc ++ (span cls s).1) (span cls s).2.
Proof.
  intros Hk. revert acc. induction s as [|c s IH]; intros acc; simpl.
  - rewrite app_nil_r. reflexivity.
  - destruct (cls c).
    + rewrite IH. destruct (span cls s) as [a b]. simpl.
      rewrite <- app_assoc. simpl.
      destruct (Hk (acc ++ c :: a) b) as [r ->]. reflexivity.
    + rewrite app_nil_r. reflexivity.
Qed.

(** the part of the field pattern after the literal: [\s*(\S+)] *)
Lemma field_tail_span s :
  star is_space (plus_group is_nonspace (fun g _ => Some g)) s
  = match (span is_nonspace (span is_space s).2).1 with
    | [] => None
    | tok => Some tok
    end.
Proof.
  induction s as [|c s IH]; [reflexivity|].
  cbn [star span]. destruct (is_space c) eqn:E.
  - rewrite IH. destruct (span is_space s) as [ws s1]. cbn [fst snd].
    destruct (span is_nonspace s1).1 eqn:F; [|reflexivity].
    unfold plus_group, is_nonspace. rewrite E. reflexivity.
  - cbn [snd]. unfold plus_group. cbn [span]. unfold is_nonspace at 1 3.
    rewrite E. cbn [negb].
    rewrite star_group_total by eauto.
    destruct (span is_nonspace s) as [a b]. reflexivity.
Qed.

Lemma is_nonspace_Forall l :
  Forall (fun c => is_space c = false) l
  <-> Forall (fun c => is_nonspace c = true) l.
Proof.
  unfold is_nonspace. split; intros H; eapply Forall_impl; try exact H;
    intros c; simpl; destruct (is_space c); simpl; congruence.
Qed.

Lemma field_re_spec field n t tok :
  field_re field (drop n t) = Some tok <-> field_at (str field) n t tok.
Proof.
  unfold field_re, field_at. rewrite lit_Some. split.
  - intros (s & Hd & Hs). rewrite field_tail_span in Hs.
    pose proof (span_app is_space s) as Hs1.
    pose proof (span_fst_Forall is_space s) as Hws.
    pose proof (span_snd_head is_space s) as Hhd.
    destruct (span is_space s) as [ws s1]. cbn [fst snd] in *.
    pose proof (span_app is_nonspace s1) as Hs2.
    pose proof (span_fst_Forall is_nonspace s1) as Htok.
    pose proof (span_snd_head is_nonspace s1) as Hrest.
    destruct (span is_nonspace s1) as [g rest]. cbn [fst snd] in *.
    destruct g as [|c g]; [discriminate|]. injection Hs as <-.
    exists ws, rest. subst s s1. repeat split; try done.
    + apply is_nonspace_Forall. exact Htok.
    + destruct rest as [|r rest]; [exact I|]. unfold is_nonspace in Hrest.
      destruct (is_space r); [reflexivity|discriminate].
  - intros (ws & rest & Hd & Hws & Hne & Htok & Hrest).
    exists (ws ++ tok ++ rest). split; [exact Hd|].
    rewrite field_tail_span.
    rewrite (span_unique is_space ws (tok ++ rest) Hws).
    + cbn [snd]. rewrite (span_unique is_nonspace tok rest).
      * cbn [fst]. destruct tok; [done|reflexivity].
      * apply is_nonspace_Forall. exact Htok.
      * destruct rest as [|r rest]; [exact I|]. unfold is_nonspace.
        rewrite Hrest. reflexivity.
    + destruct tok as [|c tok]; [done|]. simpl.
      apply Forall_cons in Htok as [Hc _]. exact Hc.
Qed.

(** ** Facts of binary64 arithmetic *)

Lemma mul_comm x y : PyFloat.mul x y = PyFloat.mul y x.
Proof.
  unfold PyFloat.mul.
  destruct x as [sx|sx| |sx mx ex], y as [sy|sy| |sy my ey]; simpl;
    rewrite ?(xorb_comm sx sy); try reflexivity.
  rewrite (Pos.mul_comm mx my), (Z.add_comm ex ey). reflexivity.
Qed.

Section Rounding.
Let prec := PyFloat.prec.
Let emax := PyFloat.emax.

Lemma fexp_ge_emin e : emin prec emax <= fexp prec emax e.
  Proof. unfold fexp. lia. Qed.

Lemma shr_fexp_exponent m e l :
    emin prec emax <= snd (shr_fexp prec emax m e l).
  Proof.
    unfold shr_fexp, shr.
    pose proof (fexp_ge_emin (Zdigits2 m + e)).
    destruct (fexp prec emax (Zdigits2 m + e) - e) eqn:E; simpl; lia.
  Qed.

Lemma binary_round_aux_in_range sx mx ex lx :
    PyFloat.in_range (binary_round_aux prec emax sx mx ex lx) = true.
  Proof.
    unfold binary_round_aux.
    destruct (shr_fexp prec emax mx ex lx) as [mrs' e'].
    pose proof (shr_fexp_exponent
                  (round_nearest_even (shr_m mrs') (loc_of_shr_record mrs'))
                  e' loc_Exact) as H.
    destruct (shr_fexp prec emax _ e' loc_Exact) as [mrs'' e'']. simpl in H.
    destruct (shr_m mrs''); try reflexivity.
    destruct (e'' <=? emax - prec); [|reflexivity].
    simpl. apply Z.leb_le. exact H.
  Qed.

  (** shifting right [p] times takes [p] binary digits away *)
Lemma shr_1_digits k mrs : has_digits k mrs -> has_digits (k - 1) (shr_1 mrs).
  Proof.
    unfold has_digits. intros H Hk.
    destruct H as (m & Hm & Hd); [lia|].
    destruct mrs as [z r s]. simpl in Hm. subst z.
    destruct m as [m|m|]; simpl in *.
    - exists m. split; [reflexivity|lia].
    - exists m. split; [reflexivity|lia].
    - lia.
  Qed.

Lemma iter_pos_digits p : forall k mrs,
    has_digits k mrs -> has_digits (k - Zpos p) (SpecFloat.iter_pos shr_1 p mrs).
  Proof.
    induction p as [p IH|p IH|]; intros k mrs H; simpl.
    - replace (k - Zpos p~1) with (k - 1 - Zpos p - Zpos p) by lia.
      apply IH, IH, shr_1_digits, H.
    - replace (k - Zpos p~0) with (k - Zpos p - Zpos p) by lia.
      apply IH, IH, H.
    - apply shr_1_digits, H.
  Qed.

Lemma shr_fexp_positive m e l :
    emin prec emax < Zpos (digits2_pos m) + e ->
    exists m', shr_m (fst (shr_fexp prec emax (Zpos m) e l)) = Zpos m'.
  Proof.
    intros H. unfold shr_fexp, shr. simpl Zdigits2.
    destruct (fexp prec emax (Zpos (digits2_pos m) + e) - e) as [|p|p] eqn:E;
      simpl; try (destruct l as [|[]]; exists m; reflexivity).
    assert (Hd : has_digits (Zpos (digits2_pos m)) (shr_record_of_loc (Zpos m) l)).
    { intros _. exists m. destruct l as [|[]]; split; reflexivity. }
    apply (iter_pos_digits p) in Hd.
    destruct Hd as (m' & Hm' & _).
    - unfold fexp in E. unfold prec, PyFloat.prec in *. lia.
    - exists m'. exact Hm'.
  Qed.

Lemma round_nearest_even_positive m l :
    exists m', round_nearest_even (Zpos m) l = Zpos m'.
  Proof.
    destruct l as [|[]]; simpl; try destruct m; simpl; eauto.
  Qed.

Lemma binary_round_aux_nonzero sx m e l :
    emin prec emax < Zpos (digits2_pos m) + e ->
    PyFloat.is_zero (binary_round_aux prec emax sx (Zpos m) e l) = false.
  Proof.
    intros H. unfold binary_round_aux.
    destruct (shr_fexp_positive m e l H) as (m1 & Hm1).
    pose proof (shr_fexp_exponent (Zpos m) e l) as He.
    destruct (shr_fexp prec emax (Zpos m) e l) as [mrs' e']. simpl in Hm1, He.
    rewrite Hm1.
    destruct (round_nearest_even_positive m1 (loc_of_shr_record mrs')) as (m2 & ->).
    destruct (shr_fexp_positive m2 e' loc_Exact) as (m3 & Hm3); [lia|].
    destruct (shr_fexp prec emax (Zpos m2) e' loc_Exact) as [mrs'' e''].
    simpl in Hm3. rewrite Hm3.
    destruct (e'' <=? emax - prec); reflexivity.
  Qed.

End Rounding.
Lemma of_decimal_in_range neg m e :
  PyFloat.in_range (PyFloat.of_decimal neg m e) = true.
Proof.
  unfold PyFloat.of_decimal.
  destruct e as [|p|p].
  - unfold binary_round.
    destruct (shl_align _ _ _) as [mz ez]. apply binary_round_aux_in_range.
  - unfold binary_round.
    destruct (shl_align _ _ _) as [mz ez]. apply binary_round_aux_in_range.
  - unfold PyFloat.div, SFdiv.
    destruct (SFdiv_core_binary _ _ _ _ _ _) as [[mz ez] lz].
    apply binary_round_aux_in_range.
Qed.

Lemma py_float_in_range tok x :
  py_float tok = inr x -> PyFloat.in_range x = true.
Proof.
  unfold py_float.
  destruct (read_sign tok) as [neg s].
  destruct (span is_digit s) as [ip s1].
  destruct (match s1 with
            | [] => ([], s1)
            | c :: s1' => if is_char "." c then span is_digit s1' else ([], s1)
            end) as [fp s2].
  destruct (ip ++ fp); [discriminate|].
  destruct (read_exponent s2) as [e|]; [|discriminate].
  intros [= <-].
  destruct (digits_value _); try reflexivity.
  apply of_decimal_in_range.
Qed.

Lemma map_raise_Forall {A B} (f : A -> exn + B) (P : B -> Prop) l bs :
  (forall a b, f a = inr b -> P b) ->
  map_raise f l = inr bs -> Forall P bs.
Proof.
  intros Hf. revert bs. induction l as [|a l IH]; simpl; intros bs.
  - intros [= <-]. constructor.
  - destruct (f a) as [e|b] eqn:E; [discriminate|].
    destruct (map_raise f l) as [e|bs'] eqn:E'; [discriminate|].
    intros [= <-]. constructor; eauto.
Qed.

Lemma extract_times_in_range section_text times :
  extract_times section_text = inr times ->
  Forall (fun t => PyFloat.in_range t = true) times.
Proof. apply map_raise_Forall. exact py_float_in_range. Qed.

Lemma extract_times_exn section_text e :
  extract_times section_text = inl e -> e = ValueError.
Proof.
  unfold extract_times. generalize (findall time_re section_text).
  intros l. induction l as [|a l IH]; simpl; [discriminate|].
  destruct (py_float a) as [e'|b] eqn:E.
  - intros [= <-]. unfold py_float in E.
    repeat match type of E with
           | context [let '(_, _) := ?x in _] => destruct x
           | context [match ?x with _ => _ end] => destruct x
           end; congruence.
  - destruct (map_raise py_float l); [|discriminate].
    intros [= <-]. apply IH. reflexivity.
Qed.

(** doubling a positive value does not give zero *)
Lemma double_nonzero t :
  PyFloat.in_range t = true ->
  PyFloat.gtb t PyFloat.zero = true ->
  PyFloat.is_zero (PyFloat.mul (PyFloat.of_int 2) t) = false.
Proof.
  intros Hr Hpos.
  change (PyFloat.of_int 2) with (S754_finite false 4503599627370496 (-51)).
  destruct t as [s|s| |s m e]; try discriminate.
  - reflexivity.
  - destruct s; [discriminate|].
    unfold PyFloat.mul, SFmul. apply binary_round_aux_nonzero.
    simpl in Hr. apply Z.leb_le in Hr.
    assert (Hd : 53 <= Zpos (digits2_pos (4503599627370496 * m))).
    { simpl. lia. }
    lia.
Qed.

(** ** The heap operations on the newest object *)

Section Local.
Variables (h : heap) (d : dict).

Lemma setitem_last k v :
    setitem (length h) k v (h ++ [d]) = (inr tt, h ++ [<[k := v]> d]).
  Proof.
    unfold setitem. f_equal.
    rewrite alter_app_r_alt by lia.
    replace (length h - length h)%nat with 0%nat by lia. reflexivity.
  Qed.

Lemma lookup_last k :
    (h ++ [d]) !! length h ≫= (fun m : dict => m !! k) = d !! k.
  Proof. rewrite list_lookup_middle by reflexivity. reflexivity. Qed.

Lemma has_key_last k :
    has_key k (length h) (h ++ [d])
    = (inr (bool_decide (is_Some (d !! k))), h ++ [d]).
  Proof. unfold has_key. rewrite lookup_last. reflexivity. Qed.

Lemma getitem_last k :
    getitem (length h) k (h ++ [d])
    = (match d !! k with Some v => inr v | None => inl KeyError end, h ++ [d]).
  Proof. unfold getitem. rewrite lookup_last. destruct (d !! k); reflexivity. Qed.

End Local.

Lemma gtb_zero_not_zero x :
  PyFloat.gtb x PyFloat.zero = true -> PyFloat.is_zero x = false.
Proof. destruct x as [ | | | [] ? ?]; simpl; try reflexivity; discriminate. Qed.

Lemma run_bind {A B} (m : py A) (f : A -> py B) h :
  (m ≫= f) h
  = match m h with
    | (inr a, h') => f a h'
    | (inl e, h') => (inl e, h')
    end.
Proof. reflexivity. Qed.

Lemma run_ret {A} (a : A) h : (mret a : py A) h = (inr a, h).
Proof. reflexivity. Qed.

Lemma run_raise {A} e h : (raise e : py A) h = (inl e, h).
Proof. reflexivity. Qed.

Lemma run_lift {A} (r : exn + A) h :
  lift r h = (r, h).
Proof. destruct r; reflexivity. Qed.

#[local] Arguments PyFloat.add : simpl never.
#[local] Arguments PyFloat.mul : simpl never.
#[local] Arguments PyFloat.div : simpl never.
#[local] Arguments PyFloat.gtb : simpl never.
#[local] Arguments PyFloat.of_int : simpl never.
#[local] Arguments float_literal : simpl never.
#[local] Arguments search : simpl never.
#[local] Arguments extract_times : simpl never.

(** one step of a computation on the newest object of the heap *)
Ltac run_step :=
  first
    [ rewrite run_bind
    | rewrite run_ret
    | rewrite run_raise
    | rewrite run_lift
    | rewrite has_key_last
    | rewrite getitem_last
    | rewrite setitem_last ];
  cbv beta iota.

(** ** The blocks of [parse_output] compute the stage functions *)

Lemma parse_serial_run raw h d :
  parse_serial raw (length h) (h ++ [d])
  = match serial_stage raw d with
    | inr d' => (inr tt, h ++ [d'])
    | inl e => (inl e, h ++ [d])
    end.
Proof.
  unfold parse_serial, serial_stage, when, index.
  destruct (search serial_re raw) as [g|]; [|reflexivity].
  do 2 run_step.
  destruct (extract_times g) as [e|[|t ts]]; try reflexivity.
  cbn [bool_decide decide_rel]. simpl. repeat run_step. reflexivity.
Qed.

Lemma compute_overall_run h d :
  compute_overall (length h) (h ++ [d]) = (inr tt, h ++ [overall_stage d]).
Proof.
  unfold compute_overall, overall_stage, and_then, when, truediv.
  do 3 run_step.
  destruct (d !! "PE1"%string) as [pe1|] eqn:E1;
    cbn [bool_decide decide_rel is_Some_dec];
    [|repeat run_step; reflexivity].
  do 2 run_step.
  destruct (d !! "PE2"%string) as [pe2|] eqn:E2;
    cbn [bool_decide decide_rel is_Some_dec];
    [|repeat run_step; reflexivity].
  do 2 run_step.
  destruct (d !! "RS1e5"%string) as [x|] eqn:E3;
    cbn [bool_decide decide_rel is_Some_dec];
    [|repeat run_step; reflexivity].
  do 2 run_step. rewrite E3. cbv beta iota. run_step.
  destruct (PyFloat.gtb x PyFloat.zero) eqn:G; [|repeat run_step; reflexivity].
  do 2 run_step. rewrite E3. cbv beta iota.
  rewrite (gtb_zero_not_zero _ G).
  do 4 run_step. rewrite E1. cbv beta iota.
  do 2 run_step. rewrite E2. cbv beta iota.
  run_step. reflexivity.
Qed.
Lemma efficiency_run h d key num den :
  when (PyFloat.gtb den PyFloat.zero)
    (pe ← truediv num (PyFloat.mul (PyFloat.of_int 2) den);
     setitem (length h) key pe) (h ++ [d])
  = match efficiency key num den d with
    | inr d' => (inr tt, h ++ [d'])
    | inl e => (inl e, h ++ [d])
    end.
Proof.
  unfold when, efficiency, truediv.
  destruct (PyFloat.gtb den PyFloat.zero); [|reflexivity].
  run_step.
  destruct (PyFloat.is_zero _); repeat run_step; reflexivity.
Qed.

Lemma parse_scale_2m_run raw h d :
  exists d',
    parse_scale_2m raw (length h) (h ++ [d])
    = (match scale_stage raw d with inr _ => inr tt | inl e => inl e end,
       h ++ [d'])
    /\ forall m, scale_stage raw d = inr m -> d' = m.
Proof.
  unfold parse_scale_2m, scale_stage, index.
  destruct (search scale_2m_re raw) as [g|]; [|eexists; split; [reflexivity|congruence]].
  do 2 run_step.
  destruct (extract_times g) as [e|[|t64 [|t128 [|t256 ts]]]];
    try (eexists; split; [reflexivity|congruence]).
  unfold when at 1. cbn [length Nat.leb]. simpl lookup.
  do 13 run_step.
  rewrite efficiency_run.
  destruct (efficiency "PE1" _ _ _) as [e|m2];
    [eexists; split; [reflexivity|congruence]|].
  cbv beta iota. rewrite efficiency_run.
  destruct (efficiency "PE2" _ _ _) as [e|m3];
    eexists; (split; [reflexivity|congruence]).
Qed.

Lemma parse_output_run raw h :
  exists d,
    parse_output raw h
    = (match parse_metrics raw with inr _ => inr (length h) | inl e => inl e end,
       h ++ [d])
    /\ forall m, parse_metrics raw = inr m -> d = m.
Proof.
  unfold parse_output, parse_metrics, new_dict.
  run_step. run_step. rewrite parse_serial_run.
  destruct (serial_stage raw ∅) as [e|m1];
    [eexists; split; [reflexivity|congruence]|].
  cbv beta iota. run_step.
  destruct (parse_scale_2m_run raw h m1) as (d2 & -> & Hd2).
  destruct (scale_stage raw m1) as [e|m2];
    [eexists; split; [reflexivity|congruence]|].
  specialize (Hd2 _ eq_refl) as ->.
  run_step. rewrite compute_overall_run. cbv beta iota. run_step.
  eexists; split; [reflexivity|congruence].
Qed.

(** ** The extractor in terms of the two scans *)

Lemma efficiency_in_range key num den m :
  PyFloat.in_range den = true ->
  efficiency key num den m = inr (record_efficiency key num den m).
Proof.
  intros Hr. unfold efficiency, record_efficiency.
  destruct (PyFloat.gtb den PyFloat.zero) eqn:G; [|reflexivity].
  rewrite (double_nonzero den Hr G). reflexivity.
Qed.

Lemma serial_stage_scan raw m :
  serial_stage raw m
  = match serial_scan raw with
    | Some (inl e) => inl e
    | scan => inr (record_serial (found scan) m)
    end.
Proof.
  unfold serial_stage, serial_scan, section_scan, serial_re.
  destruct (search (section_re "SERIAL") raw) as [g|]; [|reflexivity].
  simpl. destruct (extract_times g) as [e|[|t ts]]; reflexivity.
Qed.

Lemma scale_stage_scan raw m :
  scale_stage raw m
  = match scale_scan raw with
    | Some (inl e) => inl e
    | scan => inr (record_scale (found scan) m)
    end.
Proof.
  unfold scale_stage, scale_scan, section_scan, scale_2m_re.
  destruct (search (section_re "SCALE_2M") raw) as [g|]; [|reflexivity].
  simpl. destruct (extract_times g) as [e|times] eqn:E; [reflexivity|].
  apply extract_times_in_range in E.
  destruct times as [|t64 [|t128 [|t256 ts]]]; try reflexivity.
  apply Forall_cons in E as [_ E]. apply Forall_cons in E as [H128 E].
  apply Forall_cons in E as [H256 _].
  simpl. rewrite efficiency_in_range by exact H128.
  rewrite efficiency_in_range by exact H256. reflexivity.
Qed.

Lemma parse_metrics_scans raw :
  parse_metrics raw
  = match serial_scan raw, scale_scan raw with
    | Some (inl e), _ => inl e
    | _, Some (inl e) => inl e
    | serial, scale => inr (metrics_of (found serial) (found scale))
    end.
Proof.
  unfold parse_metrics, metrics_of.
  rewrite serial_stage_scan.
  destruct (serial_scan raw) as [[e|ts]|]; try reflexivity;
    rewrite scale_stage_scan;
    destruct (scale_scan raw) as [[e|tc]|]; reflexivity.
Qed.

Lemma extract_in_parse_metrics h raw : extract_in h raw = parse_metrics raw.
Proof.
  unfold extract_in.
  destruct (parse_output_run raw h) as (d & -> & Hd).
  destruct (parse_metrics raw) as [e|m]; [reflexivity|].
  rewrite (Hd m eq_refl), list_lookup_middle by reflexivity. reflexivity.
Qed.

(** the extractor returns the mapping of the two scans, unless one of them
    raises *)
Lemma extract_scans raw :
  extract raw
  = match serial_scan raw, scale_scan raw with
    | Some (inl e), _ => inl e
    | _, Some (inl e) => inl e
    | serial, scale => inr (metrics_of (found serial) (found scale))
    end.
Proof. unfold extract. rewrite extract_in_parse_metrics. apply parse_metrics_scans. Qed.

Lemma section_scan_exn name raw e :
  section_scan name raw = Some (inl e) -> e = ValueError.
Proof.
  unfold section_scan. destruct (search _ raw) as [g|]; [|discriminate].
  simpl. intros [= H]. exact (extract_times_exn _ _ H).
Qed.


Lemma extract_ok raw :
  (forall e, serial_scan raw <> Some (inl e)) ->
  (forall e, scale_scan raw <> Some (inl e)) ->
  extract raw = inr (metrics_of (found (serial_scan raw)) (found (scale_scan raw))).
Proof.
  intros H1 H2. rewrite extract_scans.
  destruct (serial_scan raw) as [[e1|ts]|]; [destruct (H1 e1); reflexivity| |];
    (destruct (scale_scan raw) as [[e2|tc]|]; [destruct (H2 e2); reflexivity| |]);
    reflexivity.
Qed.

(** ** Looking keys up in the recorded mapping *)

Lemma overall_stage_lookup_ne m k :
  k <> "overall"%string -> overall_stage m !! k = m !! k.
Proof.
  intros Hk. unfold overall_stage.
  repeat case_match; try reflexivity. apply lookup_insert_ne. congruence.
Qed.

Lemma record_efficiency_lookup_ne key num den m k :
  k <> key -> record_efficiency key num den m !! k = m !! k.
Proof.
  intros Hk. unfold record_efficiency. case_match; [|reflexivity].
  apply lookup_insert_ne. congruence.
Qed.

Lemma record_efficiency_lookup key num den m :
  record_efficiency key num den m !! key
  = if PyFloat.gtb den PyFloat.zero
    then Some (PyFloat.div num (PyFloat.mul (PyFloat.of_int 2) den))
    else m !! key.
Proof.
  unfold record_efficiency. case_match; [|reflexivity]. apply lookup_insert_eq.
Qed.

Lemma record_serial_lookup_ne times m k :
  k <> "RS1e5"%string -> record_serial times m !! k = m !! k.
Proof.
  intros Hk. destruct times; [reflexivity|]. apply lookup_insert_ne. congruence.
Qed.


Lemma record_scale_lookup_ne times m k :
  k ∉ scale_keys -> record_scale times m !! k = m !! k.
Proof.
  intros Hk. unfold record_scale.
  destruct times as [|t64 [|t128 [|t256 ts]]]; try reflexivity.
  rewrite !record_efficiency_lookup_ne, !lookup_insert_ne; try reflexivity;
    intros E; subst k; apply Hk; unfold scale_keys; set_solver.
Qed.

Lemma record_scale_short times m :
  (length times < 3)%nat -> record_scale times m = m.
Proof. destruct times as [|t64 [|t128 [|t256 ts]]]; simpl; [reflexivity..|lia]. Qed.

(** ** The contents of the returned mapping *)

Lemma not_elem_of_scale_keys k :
  bool_decide (k ∈ scale_keys) = false -> k ∉ scale_keys.
Proof. apply bool_decide_eq_false. Qed.

Lemma overall_score_spec pe1 pe2 rs :
  overall_score pe1 pe2 rs = spec_overall pe1 pe2 rs.
Proof.
  unfold overall_score, spec_overall.
  rewrite (mul_comm pe1), (mul_comm pe2), (mul_comm (PyFloat.div _ _)).
  reflexivity.
Qed.

Lemma overall_stage_lookup m :
  m !! "overall" = None ->
  overall_stage m !! "overall"
  = match m !! "PE1", m !! "PE2", m !! "RS1e5" with
    | Some pe1, Some pe2, Some rs =>
        if PyFloat.gtb rs PyFloat.zero
        then Some (spec_overall pe1 pe2 rs) else None
    | _, _, _ => None
    end.
Proof.
  intros Hm. unfold overall_stage.
  repeat case_match; try exact Hm.
  rewrite lookup_insert_eq, overall_score_spec. reflexivity.
Qed.

Lemma metrics_of_overall serial scale :
  let m := metrics_of serial scale in
  m !! "overall"
  = match m !! "PE1", m !! "PE2", m !! "RS1e5" with
    | Some pe1, Some pe2, Some rs =>
        if PyFloat.gtb rs PyFloat.zero
        then Some (spec_overall pe1 pe2 rs) else None
    | _, _, _ => None
    end.
Proof.
  unfold metrics_of. simpl.
  rewrite overall_stage_lookup.
  - rewrite !overall_stage_lookup_ne by done. reflexivity.
  - rewrite record_scale_lookup_ne, record_serial_lookup_ne by
      (try done; apply not_elem_of_scale_keys; reflexivity).
    apply lookup_empty.
Qed.

Lemma extract_inr raw m :
  extract raw = inr m ->
  m = metrics_of (found (serial_scan raw)) (found (scale_scan raw)).
Proof.
  rewrite extract_scans.
  destruct (serial_scan raw) as [[e1|ts]|];
    destruct (scale_scan raw) as [[e2|tc]|]; congruence.
Qed.

Section ScaleFound.
Variables (serial rest : list PyFloat.float) (t64 t128 t256 : PyFloat.float).
Let m := metrics_of serial (t64 :: t128 :: t256 :: rest).

Lemma metrics_of_T_2M :
    m !! "T_2M_64" = Some t64 /\ m !! "T_2M_128" = Some t128
    /\ m !! "T_2M_256" = Some t256.
  Proof.
    unfold m, metrics_of, record_scale.
    rewrite !overall_stage_lookup_ne, !record_efficiency_lookup_ne by done.
    by simplify_map_eq.
  Qed.

Lemma metrics_of_PE1 :
    m !! "PE1"
    = if PyFloat.gtb t128 PyFloat.zero
      then Some (PyFloat.div t64 (PyFloat.mul (PyFloat.of_int 2) t128))
      else None.
  Proof.
    unfold m, metrics_of, record_scale.
    rewrite overall_stage_lookup_ne, record_efficiency_lookup_ne by done.
    rewrite record_efficiency_lookup. case_match; [reflexivity|].
    rewrite !lookup_insert_ne, record_serial_lookup_ne by done.
    apply lookup_empty.
  Qed.

Lemma metrics_of_PE2 :
    m !! "PE2"
    = if PyFloat.gtb t256 PyFloat.zero
      then Some (PyFloat.div t128 (PyFloat.mul (PyFloat.of_int 2) t256))
      else None.
  Proof.
    unfold m, metrics_of, record_scale.
    rewrite overall_stage_lookup_ne by done.
    rewrite record_efficiency_lookup. case_match; [reflexivity|].
    rewrite record_efficiency_lookup_ne by done.
    rewrite !lookup_insert_ne, record_serial_lookup_ne by done.
    apply lookup_empty.
  Qed.

End ScaleFound.

Lemma metrics_of_short serial scale k :
  (length scale < 3)%nat -> k ∈ "overall"%string :: scale_keys ->
  metrics_of serial scale !! k = None.
Proof.
  intros Hlen Hk.
  assert (Hs : forall k', k' ∈ scale_keys ->
                 metrics_of serial scale !! k' = None).
  { intros k' Hk'. unfold metrics_of.
    rewrite overall_stage_lookup_ne, record_scale_short by
      (try exact Hlen; intros ->; revert Hk'; apply not_elem_of_scale_keys;
       reflexivity).
    apply record_serial_lookup_ne. intros ->. revert Hk'.
    apply not_elem_of_scale_keys. reflexivity. }
  apply elem_of_cons in Hk as [->|Hk]; [|exact (Hs k Hk)].
  rewrite (metrics_of_overall serial scale). simpl.
  rewrite (Hs "PE1"%string) by (unfold scale_keys; set_solver). reflexivity.
Qed.


(** * The claims of the specification *)

(** ** The overall score *)

(** C1: the mapping the extractor returns has the key [overall] if and only
    if it has [PE1], [PE2] and [RS1e5] with [RS1e5 > 0], and [overall] is then
    [0.4*PE1 + 0.4*PE2 + 0.2*(1.0/RS1e5)]. *)
Theorem overall_present_iff raw m :
  extract raw = inr m ->
  (is_Some (m !! "overall")
   <-> exists pe1 pe2 rs,
         m !! "PE1" = Some pe1 /\ m !! "PE2" = Some pe2
         /\ m !! "RS1e5" = Some rs /\ PyFloat.gtb rs PyFloat.zero = true)
  /\ forall pe1 pe2 rs,
       m !! "PE1" = Some pe1 -> m !! "PE2" = Some pe2 ->
       m !! "RS1e5" = Some rs -> PyFloat.gtb rs PyFloat.zero = true ->
       m !! "overall" = Some (spec_overall pe1 pe2 rs).
Proof.
  intros H. apply extract_inr in H. subst m.
  pose proof (metrics_of_overall (found (serial_scan raw))
                (found (scale_scan raw))) as Ho.
  simpl in Ho. rewrite Ho. clear Ho.
  split.
  - split.
    + intros [v Hv]. repeat case_match; try discriminate. eauto 10.
    + intros (pe1 & pe2 & rs & -> & -> & -> & ->). eauto.
  - intros pe1 pe2 rs -> -> -> ->. reflexivity.
Qed.

Lemma overall_present_iff_witness :
  extract sample_report
  = inr (metrics_of [float_literal "120.5"]
           [float_literal "64.2"; float_literal "30.1"; float_literal "16.0"])
  /\ metrics_of [float_literal "120.5"]
       [float_literal "64.2"; float_literal "30.1"; float_literal "16.0"]
     !! "overall"
     = Some (spec_overall
               (PyFloat.div (float_literal "64.2")
                  (PyFloat.mul (PyFloat.of_int 2) (float_literal "30.1")))
               (PyFloat.div (float_literal "30.1")
                  (PyFloat.mul (PyFloat.of_int 2) (float_literal "16.0")))
               (float_literal "120.5")).
Proof.
  assert (H : extract sample_report
              = inr (metrics_of [float_literal "120.5"]
                       [float_literal "64.2"; float_literal "30.1";
                        float_literal "16.0"]))
    by (vm_compute; reflexivity).
  split; [exact H|].
  apply (proj2 (overall_present_iff sample_report _ H));
    vm_compute; reflexivity.
Defined.

(** ** The serial section *)




(** ** Validation *)

(** C7: a text without the opening marker is rejected with [MissingHeader]
    whatever else it holds; a text with the opening marker and without the
    closing marker is rejected with [MissingFooter]. *)
Theorem validate_markers raw :
  (~ occurs HEADER raw -> validate_output raw = (false, MissingHeader))
  /\ (occurs HEADER raw -> ~ occurs FOOTER raw ->
      validate_output raw = (false, MissingFooter)).
Proof.
  unfold validate_output. split.
  - intros H. apply contains_false in H. rewrite H. reflexivity.
  - intros H1 H2. apply contains_true in H1. apply contains_false in H2.
    rewrite H1, H2. reflexivity.
Qed.

Lemma validate_markers_witness :
  (~ occurs HEADER (line "LEADERBOARD_NAME: alice")
   /\ validate_output (line "LEADERBOARD_NAME: alice") = (false, MissingHeader))
  /\ (occurs HEADER (HEADER ++ line "LEADERBOARD_NAME: alice")
      /\ ~ occurs FOOTER (HEADER ++ line "LEADERBOARD_NAME: alice")
      /\ validate_output (HEADER ++ line "LEADERBOARD_NAME: alice")
         = (false, MissingFooter)).
Proof.
  assert (H0 : ~ occurs HEADER (line "LEADERBOARD_NAME: alice"))
    by (apply contains_false; vm_compute; reflexivity).
  assert (H1 : occurs HEADER (HEADER ++ line "LEADERBOARD_NAME: alice"))
    by (apply contains_true; vm_compute; reflexivity).
  assert (H2 : ~ occurs FOOTER (HEADER ++ line "LEADERBOARD_NAME: alice"))
    by (apply contains_false; vm_compute; reflexivity).
  split.
  - split; [exact H0|]. exact (proj1 (validate_markers _) H0).
  - split; [exact H1|]. split; [exact H2|].
    exact (proj2 (validate_markers _) H1 H2).
Defined.

(** C6, as the code has it: on a text with both markers, validation fails
    with [MissingName] exactly when no part of the text is
    [LEADERBOARD_NAME:], optional whitespace and a character that is not
    whitespace; and when the text has such a field, validation succeeds
    with the token of the leftmost one, unchanged. *)
Theorem validate_name raw :
  occurs HEADER raw -> occurs FOOTER raw ->
  (validate_output raw = (false, MissingName)
   <-> ~ exists n tok, field_at (str "LEADERBOARD_NAME:") n raw tok)
  /\ forall n tok,
       field_at (str "LEADERBOARD_NAME:") n raw tok ->
       (forall k tok', (k < n)%nat ->
          ~ field_at (str "LEADERBOARD_NAME:") k raw tok') ->
       validate_output raw = (true, tok).
Proof.
  intros H1 H2. apply contains_true in H1, H2.
  unfold validate_output. rewrite H1, H2. simpl negb. cbv iota.
  split.
  - split.
    + destruct (search name_re raw) as [g|] eqn:E; [discriminate|].
      intros _ (n & tok & Hf). apply field_re_spec in Hf.
      rewrite search_None in E. unfold name_re in E. rewrite E in Hf.
      discriminate.
    + intros Hno. destruct (search name_re raw) as [g|] eqn:E; [|reflexivity].
      exfalso. apply Hno. apply search_Some in E as (i & _ & Hi & _).
      exists i, g. apply field_re_spec. exact Hi.
  - intros n tok Hf Hleft.
    rewrite (search_first name_re raw n tok); [reflexivity| |].
    + intros k Hk. unfold name_re.
      destruct (field_re "LEADERBOARD_NAME:" (drop k raw)) as [tok'|] eqn:E;
        [|reflexivity].
      apply field_re_spec in E. destruct (Hleft k tok' Hk E).
    + apply field_re_spec. exact Hf.
Qed.

Lemma validate_name_witness :
  occurs HEADER sample_report /\ occurs FOOTER sample_report
  /\ field_at (str "LEADERBOARD_NAME:") 46 sample_report (str "alice")
  /\ validate_output sample_report = (true, str "alice").
Proof.
  assert (H1 : occurs HEADER sample_report)
    by (apply contains_true; vm_compute; reflexivity).
  assert (H2 : occurs FOOTER sample_report)
    by (apply contains_true; vm_compute; reflexivity).
  assert (Hf : field_at (str "LEADERBOARD_NAME:") 46 sample_report (str "alice"))
    by (apply field_re_spec; vm_compute; reflexivity).
  split; [exact H1|]. split; [exact H2|]. split; [exact Hf|].
  apply (proj2 (validate_name sample_report H1 H2) 46%nat (str "alice") Hf).
  intros k tok' Hk Hk'. apply field_re_spec in Hk'.
  assert (Hnone : forallb (fun k => match field_re "LEADERBOARD_NAME:"
                                             (drop k sample_report) with
                                    | None => true | Some _ => false end)
                    (seq 0 46) = true) by (vm_compute; reflexivity).
  rewrite forallb_forall in Hnone. specialize (Hnone k).
  rewrite Hk' in Hnone. discriminate Hnone. apply in_seq. lia.
Defined.

(** C6 as it is stated fails twice: the empty text has no name field and is
    rejected with [MissingHeader], not [MissingName]; and
    [tight_name_report] has no [LEADERBOARD_NAME:] followed by whitespace
    and a token, and is accepted. *)
Lemma missing_name_not_exact :
  (search spec_name_re [] = None
   /\ validate_output [] = (false, MissingHeader)
   /\ MissingHeader <> MissingName)
  /\ (occurs HEADER tight_name_report /\ occurs FOOTER tight_name_report
      /\ search spec_name_re tight_name_report = None
      /\ validate_output tight_name_report = (true, str "bob")).
Proof.
  split.
  - split; [reflexivity|]. split; [reflexivity|]. discriminate.
  - split; [apply contains_true; vm_compute; reflexivity|].
    split; [apply contains_true; vm_compute; reflexivity|].
    split; vm_compute; reflexivity.
Qed.

(** ** Submission *)

(** C9: a submission whose text fails validation is answered with status
    400 and the reason of the validator, which is one of the three
    messages, and nothing is stored: the table is left as it was. *)
Theorem submit_rejects_without_storing now raw db h reason :
  validate_output raw = (false, reason) ->
  submit now raw db h = (inr (Rejected 400 reason), db, h)
  /\ (reason = MissingHeader \/ reason = MissingFooter \/ reason = MissingName).
Proof.
  intros Hv. split.
  - unfold submit. rewrite Hv. reflexivity.
  - unfold validate_output in Hv.
    destruct (negb (contains HEADER raw)); [injection Hv as <-; auto|].
    destruct (negb (contains FOOTER raw)); [injection Hv as <-; auto|].
    destruct (search name_re raw); [discriminate|]. injection Hv as <-. auto.
Qed.

Lemma submit_rejects_without_storing_witness :
  validate_output (HEADER ++ line "LEADERBOARD_NAME: alice")
  = (false, MissingFooter)
  /\ submit (str "2026-01-01T00:00:00+00:00")
       (HEADER ++ line "LEADERBOARD_NAME: alice") ∅ []
     = (inr (Rejected 400 MissingFooter), ∅, []).
Proof.
  assert (Hv : validate_output (HEADER ++ line "LEADERBOARD_NAME: alice")
               = (false, MissingFooter)) by (vm_compute; reflexivity).
  split; [exact Hv|].
  exact (proj1 (submit_rejects_without_storing _ _ ∅ [] _ Hv)).
Defined.

(** ** Purity *)

(** C8: the extractor is a function of the text alone.  Called in two heaps
    on the same text it returns the same mapping (or raises the same
    exception), and a call changes no object of the heap it runs in: it
    adds the one dict it creates.  The text is a value, which no operation
    changes. *)
Theorem parse_output_pure raw h1 h2 :
  extract_in h1 raw = extract_in h2 raw
  /\ exists d1 d2,
       (parse_output raw h1).2 = h1 ++ [d1]
       /\ (parse_output raw h2).2 = h2 ++ [d2].
Proof.
  split.
  - rewrite !extract_in_parse_metrics. reflexivity.
  - destruct (parse_output_run raw h1) as (d1 & E1 & _).
    destruct (parse_output_run raw h2) as (d2 & E2 & _).
    exists d1, d2. rewrite E1, E2. split; reflexivity.
Qed.

(** ** Failure of the extractor *)

(** C2 fails on the code: on [malformed_report] the token [1.2.3] passes the
    pattern of the timing lines, [float] rejects it, and [parse_output]
    raises [ValueError]; the text is valid, so [submit] raises too. *)
Theorem extract_raises_on_malformed_number :
  findall time_re (line "Simulation Time = 1.2.3 seconds") = [str "1.2.3"]
  /\ extract malformed_report = inl ValueError
  /\ validate_output malformed_report = (true, str "mallory")
  /\ (submit (str "2026-01-01T00:00:00+00:00") malformed_report ∅ []).1
     = (inl ValueError, ∅).
Proof. repeat split; vm_compute; reflexivity. Qed.

(** C3 fails on the code: the scan of the scaling section of
    [serial_malformed_report] finds the three values 4, 2 and 1, but the
    serial section comes first and its token [1.2.3] makes [float] raise, so
    [parse_output] returns no mapping and the three values are recorded
    nowhere. *)
Theorem scale_values_lost_on_malformed_serial :
  validate_output serial_malformed_report = (true, str "mallory")
  /\ scale_scan serial_malformed_report
     = Some (inr [float_literal "4"; float_literal "2"; float_literal "1"])
  /\ extract serial_malformed_report = inl ValueError.
Proof. repeat split; vm_compute; reflexivity. Qed.

(** C4 fails on the code: in [serial_malformed_fast_report] the scaling
    section yields 64.2, 30.1 and 16.0, both divisors are positive, and no
    mapping with [PE1] or [PE2] is returned, because the malformed token of
    the serial section makes [parse_output] raise. *)
Theorem efficiencies_lost_on_malformed_serial :
  scale_scan serial_malformed_fast_report
  = Some (inr [float_literal "64.2"; float_literal "30.1";
               float_literal "16.0"])
  /\ PyFloat.gtb (float_literal "30.1") PyFloat.zero = true
  /\ PyFloat.gtb (float_literal "16.0") PyFloat.zero = true
  /\ extract serial_malformed_fast_report = inl ValueError
  /\ forall m, extract serial_malformed_fast_report <> inr m.
Proof.
  assert (H : extract serial_malformed_fast_report = inl ValueError)
    by (vm_compute; reflexivity).
  repeat split; try (vm_compute; reflexivity).
  intros m. rewrite H. discriminate.
Qed.

(** C10 fails on the code: the scaling section of
    [serial_malformed_zero_report] yields 3.5, 0 and -1e-3, and none of the
    three timing keys is in a result, because there is none: the token [5e]
    of the serial section makes [parse_output] raise. *)
Theorem timings_lost_on_malformed_serial :
  scale_scan serial_malformed_zero_report
  = Some (inr [float_literal "3.5"; float_literal "0"; float_literal "-1e-3"])
  /\ serial_scan serial_malformed_zero_report = Some (inl ValueError)
  /\ extract serial_malformed_zero_report = inl ValueError.
Proof. repeat split; vm_compute; reflexivity. Qed.

(** ** Stable sorting in descending order *)

Section SortingFacts.
Context {A : Type} (lt : A -> A -> bool).

Lemma insert_desc_perm x l : insert_desc lt x l ≡ₚ x :: l.
Proof.
  induction l as [|y l IH]; simpl; [reflexivity|].
  destruct (lt x y); [|reflexivity].
  rewrite IH. apply Permutation_swap.
Qed.

Lemma sorted_desc_perm l : sorted_desc lt l ≡ₚ l.
Proof.
  induction l as [|x l IH]; simpl; [reflexivity|].
  rewrite insert_desc_perm, IH. reflexivity.
Qed.

(** [lt] is a strict order on the elements that satisfy [P], and any two
    of them compare *)
Variable P : A -> Prop.
Hypothesis lt_asym : forall x y, P x -> P y -> lt x y = true -> lt y x = false.
Hypothesis ge_trans : forall x y z, P x -> P y -> P z ->
  lt x y = false -> lt y z = false -> lt x z = false.

(** the order of the result: not ascending, and the order [R] of the
    argument between elements that tie *)
Variable R : A -> A -> Prop.

Definition desc_then (a b : A) : Prop :=
  lt a b = false /\ (lt b a = false -> R a b).

Lemma insert_desc_sorted x l :
  P x -> Forall P l -> Forall (R x) l ->
  StronglySorted desc_then l ->
  StronglySorted desc_then (insert_desc lt x l).
Proof.
  intros Px Pl Rx Hs. induction Hs as [|y l Hs IH Hy]; simpl.
  - repeat constructor.
  - apply Forall_cons in Pl as [Py Pl]. apply Forall_cons in Rx as [Rxy Rx].
    destruct (lt x y) eqn:E.
    + constructor; [exact (IH Pl Rx)|].
      rewrite insert_desc_perm. constructor; [|exact Hy].
      split; [exact (lt_asym _ _ Px Py E)|congruence].
    + constructor; [constructor; assumption|].
      constructor; [split; auto|].
      rewrite Forall_forall in Hy, Pl, Rx. apply Forall_forall.
      intros z Hz. destruct (Hy z Hz) as [Hyz _]. split; [|auto].
      exact (ge_trans _ _ _ Px Py (Pl z Hz) E Hyz).
Qed.

Lemma sorted_desc_stable l :
  Forall P l -> StronglySorted R l ->
  StronglySorted desc_then (sorted_desc lt l).
Proof.
  intros Pl Hs. induction Hs as [|x l Hs IH Hx]; simpl; [constructor|].
  apply Forall_cons in Pl as [Px Pl].
  apply insert_desc_sorted; auto.
  - rewrite sorted_desc_perm. exact Pl.
  - rewrite sorted_desc_perm. exact Hx.
Qed.

End SortingFacts.

(** ** The order of the texts *)

Lemma text_ltb_asym a b : text_ltb a b = true -> text_ltb b a = false.
Proof.
  revert b. induction a as [|x a IH]; intros [|y b]; simpl; try done.
  destruct (N.ltb_spec (code x) (code y)), (N.ltb_spec (code y) (code x));
    try done; try lia. apply IH.
Qed.

Lemma text_ge_trans a b c :
  text_ltb a b = false -> text_ltb b c = false -> text_ltb a c = false.
Proof.
  revert b c. induction a as [|x a IH]; intros [|y b] [|z c]; simpl; try done.
  destruct (N.ltb_spec (code x) (code y)), (N.ltb_spec (code y) (code x)),
    (N.ltb_spec (code y) (code z)), (N.ltb_spec (code z) (code y)),
    (N.ltb_spec (code x) (code z)), (N.ltb_spec (code z) (code x));
    try done; try lia. apply IH.
Qed.

(** ** The order of the floats *)

Ltac rank_cases :=
  repeat match goal with
         | |- context [Z.ltb ?a ?b] => destruct (Z.ltb_spec a b)
         | |- context [Z.eqb ?a ?b] => destruct (Z.eqb_spec a b)
         end;
  simpl; try done; try lia.

Lemma ltb_rank x y :
  is_nan x = false -> is_nan y = false ->
  PyFloat.ltb x y = rank_ltb (rank x) (rank y).
Proof.
  unfold PyFloat.ltb, SFltb.
  destruct x as [[]|[]| |[] mx ex], y as [[]|[]| |[] my ey]; try done; intros _ _;
    unfold rank, rank_ltb; cbn [SFcompare];
    change (Pos.compare_cont Eq mx my) with (Pos.compare mx my);
    destruct (Z.compare_spec ex ey), (Pos.compare_spec mx my); simpl;
    rank_cases.
Qed.

Lemma rank_ltb_asym a b : rank_ltb a b = true -> rank_ltb b a = false.
Proof.
  destruct a as [[a1 a2] a3], b as [[b1 b2] b3]. unfold rank_ltb.
  destruct (Z.ltb_spec a1 b1), (Z.ltb_spec b1 a1), (Z.eqb_spec a1 b1),
    (Z.eqb_spec b1 a1), (Z.ltb_spec a2 b2), (Z.ltb_spec b2 a2),
    (Z.eqb_spec a2 b2), (Z.eqb_spec b2 a2), (Z.ltb_spec a3 b3),
    (Z.ltb_spec b3 a3); simpl; try done; lia.
Qed.

Lemma rank_ge_trans a b c :
  rank_ltb a b = false -> rank_ltb b c = false -> rank_ltb a c = false.
Proof.
  destruct a as [[a1 a2] a3], b as [[b1 b2] b3], c as [[c1 c2] c3].
  unfold rank_ltb.
  destruct (Z.ltb_spec a1 b1), (Z.eqb_spec a1 b1), (Z.ltb_spec a2 b2),
    (Z.eqb_spec a2 b2), (Z.ltb_spec a3 b3); simpl; try done;
  destruct (Z.ltb_spec b1 c1), (Z.eqb_spec b1 c1), (Z.ltb_spec b2 c2),
    (Z.eqb_spec b2 c2), (Z.ltb_spec b3 c3); simpl; try done;
  destruct (Z.ltb_spec a1 c1), (Z.eqb_spec a1 c1), (Z.ltb_spec a2 c2),
    (Z.eqb_spec a2 c2), (Z.ltb_spec a3 c3); simpl; try done; lia.
Qed.

Lemma ltb_asym x y : PyFloat.ltb x y = true -> PyFloat.ltb y x = false.
Proof.
  destruct (is_nan x) eqn:Nx; [destruct x; done|].
  destruct (is_nan y) eqn:Ny; [destruct x, y; done|].
  rewrite !ltb_rank by assumption. apply rank_ltb_asym.
Qed.

Lemma ltb_ge_trans x y z :
  is_nan x = false -> is_nan y = false -> is_nan z = false ->
  PyFloat.ltb x y = false -> PyFloat.ltb y z = false -> PyFloat.ltb x z = false.
Proof.
  intros Nx Ny Nz. rewrite !ltb_rank by assumption. apply rank_ge_trans.
Qed.

(** ** The rows of the query and the entries of the leaderboard *)

Lemma StronglySorted_weaken {A} (R1 R2 : A -> A -> Prop) l :
  (forall a b, R1 a b -> R2 a b) -> StronglySorted R1 l -> StronglySorted R2 l.
Proof.
  intros H Hs. induction Hs as [|x l Hs IH Hx]; constructor; [exact IH|].
  eapply Forall_impl; [exact Hx|]. intros b. apply H.
Qed.

Lemma StronglySorted_fmap_inv {A B} (f : A -> B) (R : B -> B -> Prop) l :
  StronglySorted (fun a b => R (f a) (f b)) l -> StronglySorted R (f <$> l).
Proof.
  intros Hs. induction Hs as [|x l Hs IH Hx]; simpl; constructor; [exact IH|].
  apply Forall_fmap. exact Hx.
Qed.

(** [fetchall] meets the contract of the query *)
Lemma fetchall_query_result db : query_result db (fetchall db).
Proof.
  split; [apply sorted_desc_perm|].
  unfold fetchall.
  eapply StronglySorted_weaken;
    [|apply (sorted_desc_stable _ (fun _ => True) (fun _ _ _ _ => text_ltb_asym _ _)
               (fun _ _ _ _ _ _ => text_ge_trans _ _ _) (fun _ _ => True))].
  - intros a b [H _]. exact H.
  - apply Forall_forall. done.
  - induction (select_columns <$> map_to_list db); constructor;
      [assumption|apply Forall_forall; done].
Qed.

Lemma leaderboard_data_perm db rows :
  query_result db rows ->
  leaderboard_data rows ≡ₚ (entry_of ∘ select_columns) <$> map_to_list db.
Proof.
  intros [Hp _]. unfold leaderboard_data.
  rewrite sorted_desc_perm, Hp, <- list_fmap_compose. reflexivity.
Qed.

Lemma elem_of_leaderboard db rows e :
  query_result db rows ->
  e ∈ leaderboard_data rows
  <-> exists r, db !! entry_name e = Some r
                /\ entry_timestamp e = row_timestamp r
                /\ entry_metrics e = row_metrics r.
Proof.
  intros Hq. rewrite (leaderboard_data_perm db rows Hq), list_elem_of_fmap.
  split.
  - intros ([n r] & -> & Hin). apply elem_of_map_to_list in Hin.
    exists r. simpl. auto.
  - intros (r & Hr & Ht & Hm). exists (entry_name e, r). split.
    + destruct e. simpl in *. subst. reflexivity.
    + apply elem_of_map_to_list. exact Hr.
Qed.

Lemma leaderboard_names db rows :
  query_result db rows ->
  entry_name <$> leaderboard_data rows ≡ₚ (map_to_list db).*1.
Proof.
  intros Hq. rewrite (leaderboard_data_perm db rows Hq), <- list_fmap_compose.
  reflexivity.
Qed.

Lemma no_nan_scores_rows db rows :
  no_nan_scores db -> query_result db rows ->
  Forall (fun e => is_nan (score e) = false) (entry_of <$> rows).
Proof.
  intros Hn [Hp _]. rewrite Hp, <- list_fmap_compose. apply Forall_forall.
  intros e He. apply list_elem_of_fmap in He as ([n r] & -> & Hin).
  apply elem_of_map_to_list in Hin. unfold score. simpl.
  destruct (row_metrics r !! "overall") as [v|] eqn:E; [|reflexivity].
  exact (Hn n r v Hin E).
Qed.


Lemma scores_are_numbers_spec db :
  scores_are_numbers db = true -> no_nan_scores db.
Proof.
  unfold scores_are_numbers. rewrite forallb_forall.
  intros H n r v Hr Hv. apply elem_of_map_to_list, list_elem_of_In in Hr.
  specialize (H _ Hr). simpl in H. rewrite Hv in H.
  destruct (is_nan v); [discriminate|reflexivity].
Qed.

(** ** [submit] in terms of the validator and the extractor *)

Lemma submit_run now raw db h :
  exists h',
    submit now raw db h
    = (match validate_output raw with
       | (false, reason) => (inr (Rejected 400 reason), db)
       | (true, name) =>
           match extract raw with
           | inl e => (inl e, db)
           | inr m =>
               let ts := submission_timestamp now raw in
               (inr (Accepted name ts), <[name := Row ts raw m]> db)
           end
       end, h').
Proof.
  unfold submit, extract. rewrite extract_in_parse_metrics.
  destruct (validate_output raw) as [[] result]; cbn [negb]; [|eauto].
  destruct (parse_output_run raw h) as (d & -> & Hd).
  destruct (parse_metrics raw) as [e|m]; [eauto|].
  rewrite (Hd m eq_refl), list_lookup_middle by reflexivity. eauto.
Qed.

Lemma submitted_run now raw db :
  submitted now raw db
  = match validate_output raw, extract raw with
    | (true, name), inr m =>
        <[name := Row (submission_timestamp now raw) raw m]> db
    | _, _ => db
    end.
Proof.
  unfold submitted. destruct (submit_run now raw db []) as (h' & ->).
  destruct (validate_output raw) as [[] result], (extract raw); reflexivity.
Qed.

(** ** When the extractor raises *)

Lemma py_float_exn tok e : py_float tok = inl e -> e = ValueError.
Proof.
  intros E. unfold py_float in E.
  repeat match type of E with
         | context [let '(_, _) := ?x in _] => destruct x
         | context [match ?x with _ => _ end] => destruct x
         end; congruence.
Qed.

Lemma map_raise_inl {A B} (f : A -> exn + B) l :
  (exists e, map_raise f l = inl e) <-> exists x e, x ∈ l /\ f x = inl e.
Proof.
  induction l as [|a l IH]; simpl.
  - split; [intros [e ?]; discriminate|intros (x & e & Hx & _)].
    apply elem_of_nil in Hx. destruct Hx.
  - destruct (f a) as [e|b] eqn:Fa.
    + split; [intros _; exists a, e; split; [left|exact Fa]|eauto].
    + destruct (map_raise f l) as [e|bs].
      * split; [intros _|eauto].
        destruct (proj1 IH) as (x & e' & Hx & Fx); [eauto|].
        exists x, e'. split; [right; exact Hx|exact Fx].
      * split; [intros [e ?]; discriminate|].
        intros (x & e & Hx & Fx). apply elem_of_cons in Hx as [->|Hx].
        -- congruence.
        -- destruct (proj2 IH) as [e' ?]; [eauto|discriminate].
Qed.

Lemma section_scan_raises name raw :
  section_scan name raw = Some (inl ValueError) <-> bad_token name raw.
Proof.
  unfold section_scan, bad_token.
  destruct (search (section_re name) raw) as [sec|]; simpl.
  - unfold extract_times. split.
    + intros [= He].
      destruct (proj1 (map_raise_inl py_float (findall time_re sec)))
        as (tok & e' & Hin & Hf); [eauto|].
      exists sec, tok. repeat split; [exact Hin|].
      rewrite Hf, (py_float_exn _ _ Hf). reflexivity.
    + intros (sec' & tok & [= <-] & Hin & Hf).
      destruct (proj2 (map_raise_inl py_float (findall time_re sec)))
        as [e He]; [eauto|].
      rewrite He. do 2 f_equal.
      apply (extract_times_exn sec). exact He.
  - split; [discriminate|intros (sec & tok & ? & _); discriminate].
Qed.


(** * Further properties of the program

    The success path of [submit], the leaderboard, and the extractor on
    reports made of well-formed sections. *)

(** ** The leaderboard *)

(** X1: each stored submission has exactly one entry on the leaderboard, with
    the timestamp and the metrics of its row, and there is no other entry. *)
Theorem leaderboard_lists_every_submission db rows :
  query_result db rows ->
  NoDup (entry_name <$> leaderboard_data rows)
  /\ length (leaderboard_data rows) = size db
  /\ forall e,
       e ∈ leaderboard_data rows
       <-> exists r, db !! entry_name e = Some r
                     /\ entry_timestamp e = row_timestamp r
                     /\ entry_metrics e = row_metrics r.
Proof.
  intros Hq. split; [|split].
  - rewrite (leaderboard_names db rows Hq). apply NoDup_fst_map_to_list.
  - rewrite <- (length_fmap entry_name), (leaderboard_names db rows Hq).
    rewrite length_fmap. apply length_map_to_list.
  - intros e. apply elem_of_leaderboard. exact Hq.
Qed.

Lemma leaderboard_lists_every_submission_witness :
  query_result board (fetchall board)
  /\ NoDup (entry_name <$> leaderboard_data (fetchall board))
  /\ length (leaderboard_data (fetchall board)) = size board.
Proof.
  pose proof (fetchall_query_result board) as Hq.
  split; [exact Hq|].
  destruct (leaderboard_lists_every_submission board _ Hq) as (H1 & H2 & _).
  split; [exact H1|exact H2].
Defined.

(** X2: the leaderboard is in descending order of the overall score, a
    missing score counting as zero, and entries with equal scores are in
    descending order of their timestamps. *)
Theorem leaderboard_ranking db rows :
  no_nan_scores db -> query_result db rows ->
  StronglySorted ranks_before (leaderboard_data rows).
Proof.
  intros Hn Hq. unfold leaderboard_data.
  apply (sorted_desc_stable (fun a b => PyFloat.ltb (score a) (score b))
           (fun e => is_nan (score e) = false)).
  - intros x y _ _. apply ltb_asym.
  - intros x y z. apply ltb_ge_trans.
  - exact (no_nan_scores_rows db rows Hn Hq).
  - destruct Hq as [_ Hs]. apply StronglySorted_fmap_inv.
    eapply StronglySorted_weaken; [|exact Hs]. intros a b H. exact H.
Qed.

Lemma leaderboard_ranking_witness :
  no_nan_scores board /\ query_result board (fetchall board)
  /\ entry_name <$> leaderboard_data (fetchall board)
     = [str "alice"; str "bob"; str "carol"]
  /\ StronglySorted ranks_before (leaderboard_data (fetchall board)).
Proof.
  assert (Hn : no_nan_scores board)
    by (apply scores_are_numbers_spec; vm_compute; reflexivity).
  pose proof (fetchall_query_result board) as Hq.
  split; [exact Hn|]. split; [exact Hq|].
  split; [vm_compute; reflexivity|].
  exact (leaderboard_ranking board _ Hn Hq).
Defined.

(** ** The success path of [submit] *)

(** X3: a valid text whose extraction returns [m] is answered with the name
    of the validator and the timestamp of the submission, and afterwards the
    row of that name holds the timestamp, the text unchanged and [m]; the
    rows of all other names are as before. *)
Theorem submit_stores_row now raw db h name m :
  validate_output raw = (true, name) ->
  extract raw = inr m ->
  let ts := submission_timestamp now raw in
  let db' := (submit now raw db h).1.2 in
  (submit now raw db h).1.1 = inr (Accepted name ts)
  /\ db' !! name = Some (Row ts raw m)
  /\ forall n, n <> name -> db' !! n = db !! n.
Proof.
  intros Hv Hm. destruct (submit_run now raw db h) as (h' & E).
  rewrite Hv, Hm in E. simpl. rewrite E. cbn [fst snd].
  split; [reflexivity|]. split; [apply lookup_insert_eq|].
  intros n Hn. apply lookup_insert_ne. congruence.
Qed.

Lemma submit_stores_row_witness :
  validate_output sample_report = (true, str "alice")
  /\ (exists m, extract sample_report = inr m
      /\ (submit (str "2026-01-01T00:00:00+00:00") sample_report ∅ []).1.1
         = inr (Accepted (str "alice") (str "2026-01-01T00:00:00+00:00"))
      /\ (submit (str "2026-01-01T00:00:00+00:00") sample_report ∅ []).1.2
         !! str "alice"
         = Some (Row (str "2026-01-01T00:00:00+00:00") sample_report m)).
Proof.
  assert (Hv : validate_output sample_report = (true, str "alice"))
    by (vm_compute; reflexivity).
  split; [exact Hv|].
  destruct (extract sample_report) as [e|m] eqn:Hm;
    [vm_compute in Hm; discriminate|].
  exists m. split; [reflexivity|].
  destruct (submit_stores_row (str "2026-01-01T00:00:00+00:00")
              sample_report ∅ [] _ m Hv Hm) as (H1 & H2 & _).
  split; [exact H1|exact H2].
Defined.

(** X4: a second accepted submission under the same name replaces the
    first: the table is the one the second submission alone would have
    left. *)
Theorem resubmission_overwrites now1 now2 raw1 raw2 db h1 h2 name m2 :
  validate_output raw1 = (true, name) ->
  validate_output raw2 = (true, name) ->
  extract raw2 = inr m2 ->
  (submit now2 raw2 (submit now1 raw1 db h1).1.2 h2).1.2
  = (submit now2 raw2 db h2).1.2.
Proof.
  intros Hv1 Hv2 Hm2.
  destruct (submit_run now1 raw1 db h1) as (h1' & ->).
  destruct (submit_run now2 raw2 db h2) as (h2' & ->).
  rewrite Hv1, Hv2, Hm2. cbn [fst snd].
  destruct (extract raw1) as [e|m1]; cbn [fst snd];
    match goal with
    | |- context [submit now2 raw2 ?d h2] =>
        destruct (submit_run now2 raw2 d h2) as (h3 & ->)
    end; rewrite Hv2, Hm2; cbn [fst snd]; [reflexivity|].
  apply insert_insert_eq.
Qed.

Lemma resubmission_overwrites_witness :
  validate_output sample_report = (true, str "alice")
  /\ validate_output (report "alice" "2026-03-01T10:00:00" ["120.5"]
                        ["64.2"; "30.1"; "16.0"]) = (true, str "alice")
  /\ submitted (str "2026-03-04T00:00:00+00:00")
       (report "alice" "2026-03-01T10:00:00" ["120.5"] ["64.2"; "30.1"; "16.0"])
       (submitted (str "2026-01-01T00:00:00+00:00") sample_report ∅)
     = submitted (str "2026-03-04T00:00:00+00:00")
         (report "alice" "2026-03-01T10:00:00" ["120.5"]
            ["64.2"; "30.1"; "16.0"]) ∅.
Proof.
  assert (Hv1 : validate_output sample_report = (true, str "alice"))
    by (vm_compute; reflexivity).
  assert (Hv2 : validate_output (report "alice" "2026-03-01T10:00:00" ["120.5"]
                                   ["64.2"; "30.1"; "16.0"])
                = (true, str "alice")) by (vm_compute; reflexivity).
  split; [exact Hv1|]. split; [exact Hv2|].
  destruct (extract (report "alice" "2026-03-01T10:00:00" ["120.5"]
                       ["64.2"; "30.1"; "16.0"])) as [e|m2] eqn:Hm2;
    [vm_compute in Hm2; discriminate|].
  exact (resubmission_overwrites _ _ _ _ ∅ [] [] _ m2 Hv1 Hv2 Hm2).
Defined.

(** X5: whatever the text, [submit] removes no row, and it changes the
    table only when it answers [Accepted], and then only the row of the
    accepted name; a rejection or an exception leaves the table as it
    was. *)
Theorem submit_changes_one_row now raw db h :
  let db' := (submit now raw db h).1.2 in
  (forall n, is_Some (db !! n) -> is_Some (db' !! n))
  /\ match (submit now raw db h).1.1 with
     | inr (Accepted name _) => forall n, n <> name -> db' !! n = db !! n
     | _ => db' = db
     end.
Proof.
  destruct (submit_run now raw db h) as (h' & ->). cbn [fst snd].
  destruct (validate_output raw) as [[] name]; cbn [fst snd];
    [|split; [auto|reflexivity]].
  destruct (extract raw) as [e|m]; cbn [fst snd]; [split; [auto|reflexivity]|].
  split.
  - intros n Hn. destruct (decide (n = name)) as [->|Hne].
    + rewrite lookup_insert_eq. eauto.
    + rewrite lookup_insert_ne by congruence. exact Hn.
  - intros n Hn. apply lookup_insert_ne. congruence.
Qed.


(** ** The scaling section of a text whose serial section does not raise *)

(** X9: on a text whose serial scan does not raise, the extractor returns
    a mapping, and when the scan of the scaling section finds at least three
    values, the first three are recorded as [T_2M_64], [T_2M_128] and [T_2M_256];
    when it finds fewer, none of [T_2M_64], [T_2M_128], [T_2M_256], [PE1],
    [PE2] and [overall] is in the result. *)
Theorem scale_all_or_nothing raw times :
  scale_scan raw = Some (inr times) ->
  (forall e, serial_scan raw <> Some (inl e)) ->
  exists m,
    extract raw = inr m
    /\ (forall t64 t128 t256 rest,
          times = t64 :: t128 :: t256 :: rest ->
          m !! "T_2M_64" = Some t64 /\ m !! "T_2M_128" = Some t128
          /\ m !! "T_2M_256" = Some t256)
    /\ ((length times < 3)%nat ->
        m !! "T_2M_64" = None /\ m !! "T_2M_128" = None
        /\ m !! "T_2M_256" = None /\ m !! "PE1" = None
        /\ m !! "PE2" = None /\ m !! "overall" = None).
Proof.
  intros Hscale Hserial. eexists. split.
  - apply extract_ok; [exact Hserial|]. rewrite Hscale. discriminate.
  - rewrite Hscale. simpl found. split.
    + intros t64 t128 t256 rest ->. apply metrics_of_T_2M.
    + intros Hlen.
      repeat split; apply metrics_of_short; try exact Hlen;
        unfold scale_keys; set_solver.
Qed.

Lemma scale_all_or_nothing_witness :
  (scale_scan sample_report
   = Some (inr [float_literal "64.2"; float_literal "30.1";
                float_literal "16.0"])
   /\ exists m,
        extract sample_report = inr m
        /\ m !! "T_2M_64" = Some (float_literal "64.2")
        /\ m !! "T_2M_128" = Some (float_literal "30.1")
        /\ m !! "T_2M_256" = Some (float_literal "16.0"))
  /\ (scale_scan two_timings_report
      = Some (inr [float_literal "64.2"; float_literal "30.1"])
      /\ exists m,
           extract two_timings_report = inr m
           /\ m !! "T_2M_64" = None /\ m !! "T_2M_128" = None
           /\ m !! "T_2M_256" = None /\ m !! "PE1" = None
           /\ m !! "PE2" = None /\ m !! "overall" = None).
Proof.
  assert (H3 : scale_scan sample_report
               = Some (inr [float_literal "64.2"; float_literal "30.1";
                            float_literal "16.0"]))
    by (vm_compute; reflexivity).
  assert (H2 : scale_scan two_timings_report
               = Some (inr [float_literal "64.2"; float_literal "30.1"]))
    by (vm_compute; reflexivity).
  split; (split; [assumption|]).
  - destruct (scale_all_or_nothing sample_report _ H3) as (m & Hm & Hfull & _).
    + intros e. vm_compute. discriminate.
    + exists m. split; [exact Hm|]. exact (Hfull _ _ _ _ eq_refl).
  - destruct (scale_all_or_nothing two_timings_report _ H2)
      as (m & Hm & _ & Hshort).
    + intros e. vm_compute. discriminate.
    + exists m. split; [exact Hm|]. apply Hshort. simpl. lia.
Defined.

(** X10: on a text whose serial scan does not raise, when the scan of the
    scaling section finds at least three values,
    [PE1 = T_2M_64 / (2 * T_2M_128)] is present exactly when
    [T_2M_128 > 0], and [PE2 = T_2M_128 / (2 * T_2M_256)] exactly when
    [T_2M_256 > 0]; a result with [PE1] or [PE2] comes from a scan that found
    at least three values, with a divisor timing that is not zero. *)
Theorem efficiencies_present raw :
  (forall t64 t128 t256 rest,
     scale_scan raw = Some (inr (t64 :: t128 :: t256 :: rest)) ->
     (forall e, serial_scan raw <> Some (inl e)) ->
     exists m,
       extract raw = inr m
       /\ m !! "PE1"
          = (if PyFloat.gtb t128 PyFloat.zero
             then Some (PyFloat.div t64 (PyFloat.mul (PyFloat.of_int 2) t128))
             else None)
       /\ m !! "PE2"
          = (if PyFloat.gtb t256 PyFloat.zero
             then Some (PyFloat.div t128 (PyFloat.mul (PyFloat.of_int 2) t256))
             else None))
  /\ (forall m,
        extract raw = inr m ->
        is_Some (m !! "PE1") \/ is_Some (m !! "PE2") ->
        exists t64 t128 t256 rest,
          scale_scan raw = Some (inr (t64 :: t128 :: t256 :: rest))
          /\ (is_Some (m !! "PE1") -> PyFloat.is_zero t128 = false)
          /\ (is_Some (m !! "PE2") -> PyFloat.is_zero t256 = false)).
Proof.
  split.
  - intros t64 t128 t256 rest Hscale Hserial. eexists. split.
    + apply extract_ok; [exact Hserial|]. rewrite Hscale. discriminate.
    + rewrite Hscale. simpl found. split;
        [apply metrics_of_PE1|apply metrics_of_PE2].
  - intros m Hm Hpe. apply extract_inr in Hm. subst m.
    destruct (found (scale_scan raw)) as [|t64 [|t128 [|t256 rest]]] eqn:F.
    1-3: exfalso; destruct Hpe as [[v Hv]|[v Hv]];
           rewrite metrics_of_short in Hv; try discriminate;
           try (simpl; lia); unfold scale_keys; set_solver.
    exists t64, t128, t256, rest.
    assert (Hscan : scale_scan raw = Some (inr (t64 :: t128 :: t256 :: rest))).
    { unfold found in F. destruct (scale_scan raw) as [[e|times]|];
        try discriminate. rewrite F. reflexivity. }
    split; [exact Hscan|].
    rewrite metrics_of_PE1, metrics_of_PE2.
    split; intros [v Hv]; apply gtb_zero_not_zero;
      revert Hv; case_match; congruence.
Qed.

Lemma efficiencies_present_witness :
  (scale_scan sample_report
   = Some (inr [float_literal "64.2"; float_literal "30.1";
                float_literal "16.0"])
   /\ exists m,
        extract sample_report = inr m
        /\ m !! "PE1"
           = Some (PyFloat.div (float_literal "64.2")
                     (PyFloat.mul (PyFloat.of_int 2) (float_literal "30.1")))
        /\ m !! "PE2"
           = Some (PyFloat.div (float_literal "30.1")
                     (PyFloat.mul (PyFloat.of_int 2) (float_literal "16.0"))))
  /\ (scale_scan zero_timings_report
      = Some (inr [float_literal "3.5"; float_literal "0";
                   float_literal "-1e-3"])
      /\ exists m,
           extract zero_timings_report = inr m
           /\ m !! "PE1" = None /\ m !! "PE2" = None).
Proof.
  assert (H3 : scale_scan sample_report
               = Some (inr [float_literal "64.2"; float_literal "30.1";
                            float_literal "16.0"]))
    by (vm_compute; reflexivity).
  assert (H0 : scale_scan zero_timings_report
               = Some (inr [float_literal "3.5"; float_literal "0";
                            float_literal "-1e-3"]))
    by (vm_compute; reflexivity).
  split; (split; [assumption|]).
  - destruct (proj1 (efficiencies_present sample_report) _ _ _ _ H3)
      as (m & Hm & H1 & H2).
    + intros e. vm_compute. discriminate.
    + exists m. split; [exact Hm|]. split; [exact H1|exact H2].
  - destruct (proj1 (efficiencies_present zero_timings_report) _ _ _ _ H0)
      as (m & Hm & H1 & H2).
    + intros e. vm_compute. discriminate.
    + exists m. split; [exact Hm|]. split; [exact H1|exact H2].
Defined.

(** X11: on a text whose serial scan does not raise, when the scan of the
    scaling section finds at least three values, the three keys [T_2M_64], [T_2M_128] and [T_2M_256] are present whatever
    the values are, also when [PE1] or [PE2] is left out because its divisor
    is not strictly positive. *)
Theorem timings_recorded_without_efficiencies raw t64 t128 t256 rest :
  scale_scan raw = Some (inr (t64 :: t128 :: t256 :: rest)) ->
  (forall e, serial_scan raw <> Some (inl e)) ->
  exists m,
    extract raw = inr m
    /\ m !! "T_2M_64" = Some t64 /\ m !! "T_2M_128" = Some t128
    /\ m !! "T_2M_256" = Some t256
    /\ (PyFloat.gtb t128 PyFloat.zero = false -> m !! "PE1" = None)
    /\ (PyFloat.gtb t256 PyFloat.zero = false -> m !! "PE2" = None).
Proof.
  intros Hscale Hserial. eexists. split.
  - apply extract_ok; [exact Hserial|]. rewrite Hscale. discriminate.
  - rewrite Hscale. simpl found.
    destruct (metrics_of_T_2M (found (serial_scan raw)) rest t64 t128 t256)
      as (H64 & H128 & H256).
    repeat split; try assumption.
    + intros G. rewrite metrics_of_PE1, G. reflexivity.
    + intros G. rewrite metrics_of_PE2, G. reflexivity.
Qed.

Lemma timings_recorded_without_efficiencies_witness :
  scale_scan zero_timings_report
  = Some (inr [float_literal "3.5"; float_literal "0"; float_literal "-1e-3"])
  /\ exists m,
       extract zero_timings_report = inr m
       /\ m !! "T_2M_64" = Some (float_literal "3.5")
       /\ m !! "T_2M_128" = Some (float_literal "0")
       /\ m !! "T_2M_256" = Some (float_literal "-1e-3")
       /\ m !! "PE1" = None /\ m !! "PE2" = None.
Proof.
  assert (H : scale_scan zero_timings_report
              = Some (inr [float_literal "3.5"; float_literal "0";
                           float_literal "-1e-3"]))
    by (vm_compute; reflexivity).
  split; [exact H|].
  destruct (timings_recorded_without_efficiencies zero_timings_report _ _ _ _ H)
    as (m & Hm & H64 & H128 & H256 & H1 & H2).
  - intros e. vm_compute. discriminate.
  - exists m. repeat split; try assumption; [apply H1|apply H2]; reflexivity.
Defined.


(** X7: the timestamp of an accepted submission is the token of the leftmost
    [TIMESTAMP:] field of the text, whatever the clock says; only a text
    without such a field gets the time of the request. *)
Theorem submit_timestamp now raw db h name ts :
  (submit now raw db h).1.1 = inr (Accepted name ts) ->
  (forall n tok,
     field_at (str "TIMESTAMP:") n raw tok ->
     (forall k tok', (k < n)%nat -> ~ field_at (str "TIMESTAMP:") k raw tok') ->
     ts = tok)
  /\ ((~ exists n tok, field_at (str "TIMESTAMP:") n raw tok) -> ts = now).
Proof.
  destruct (submit_run now raw db h) as (h' & ->). cbn [fst snd].
  destruct (validate_output raw) as [[] name']; cbn [fst snd]; [|discriminate].
  destruct (extract raw) as [e|m]; cbn [fst snd]; [discriminate|].
  intros [= <- <-]. unfold submission_timestamp, timestamp_re. split.
  - intros n tok Hf Hleft.
    rewrite (search_first (field_re "TIMESTAMP:") raw n tok); [reflexivity| |].
    + intros k Hk.
      destruct (field_re "TIMESTAMP:" (drop k raw)) as [tok'|] eqn:E;
        [|reflexivity].
      apply field_re_spec in E. destruct (Hleft k tok' Hk E).
    + apply field_re_spec. exact Hf.
  - intros Hno.
    destruct (search (field_re "TIMESTAMP:") raw) as [g|] eqn:E; [|reflexivity].
    exfalso. apply Hno. apply search_Some in E as (i & _ & Hi & _).
    exists i, g. apply field_re_spec. exact Hi.
Qed.

Lemma submit_timestamp_witness :
  ((submit (str "2026-01-01T00:00:00+00:00") sample_report ∅ []).1.1
   = inr (Accepted (str "alice") (str "2026-01-01T00:00:00+00:00"))
   /\ ~ (exists n tok, field_at (str "TIMESTAMP:") n sample_report tok))
  /\ (field_at (str "TIMESTAMP:") 68
        (report "bob" "2026-03-02T09:00:00" ["100.0"] ["60.0"; "30.0"; "15.0"])
        (str "2026-03-02T09:00:00")
      /\ (submit (str "2026-03-04T00:00:00+00:00")
            (report "bob" "2026-03-02T09:00:00" ["100.0"]
               ["60.0"; "30.0"; "15.0"]) ∅ []).1.1
         = inr (Accepted (str "bob") (str "2026-03-02T09:00:00"))).
Proof.
  split.
  - assert (Hno : ~ exists n tok,
                      field_at (str "TIMESTAMP:") n sample_report tok).
    { intros (n & tok & Hf). apply field_re_spec in Hf.
      assert (Hs : search (field_re "TIMESTAMP:") sample_report = None)
        by (vm_compute; reflexivity).
      rewrite search_None in Hs. rewrite Hs in Hf. discriminate. }
    split; [|exact Hno].
    destruct (submit (str "2026-01-01T00:00:00+00:00") sample_report ∅ []).1.1
      as [e|[st err|name ts]] eqn:E; try (vm_compute in E; discriminate).
    pose proof (proj2 (submit_timestamp _ _ _ _ _ _ E) Hno) as ->.
    vm_compute in E. injection E as <-. reflexivity.
  - set (raw := report "bob" "2026-03-02T09:00:00" ["100.0"]
                  ["60.0"; "30.0"; "15.0"]).
    assert (Hf : field_at (str "TIMESTAMP:") 68 raw (str "2026-03-02T09:00:00"))
      by (apply field_re_spec; vm_compute; reflexivity).
    split; [exact Hf|].
    destruct (submit (str "2026-03-04T00:00:00+00:00") raw ∅ []).1.1
      as [e|[st err|name ts]] eqn:E; try (vm_compute in E; discriminate).
    rewrite (proj1 (submit_timestamp _ _ _ _ _ _ E) 68%nat _ Hf).
    + vm_compute in E. injection E as <-. reflexivity.
    + intros k tok' Hk Hk'. apply field_re_spec in Hk'.
      assert (Hnone : forallb (fun k => match field_re "TIMESTAMP:"
                                                 (drop k raw) with
                                        | None => true | Some _ => false end)
                        (seq 0 68) = true) by (vm_compute; reflexivity).
      rewrite forallb_forall in Hnone. specialize (Hnone k).
      rewrite Hk' in Hnone. discriminate Hnone. apply in_seq. lia.
Defined.

(** X8: after an accepted submission the leaderboard has exactly one entry
    of that name, and it shows the timestamp of the response and the metrics
    extracted from the submitted text. *)
Theorem submitted_entry_on_leaderboard now raw db h name ts rows :
  (submit now raw db h).1.1 = inr (Accepted name ts) ->
  query_result (submit now raw db h).1.2 rows ->
  exists m,
    extract raw = inr m
    /\ Entry name ts m ∈ leaderboard_data rows
    /\ forall e, e ∈ leaderboard_data rows -> entry_name e = name ->
                 e = Entry name ts m.
Proof.
  intros Hs Hq.
  assert (Hin := fun e => elem_of_leaderboard _ _ e Hq).
  revert Hs Hin. destruct (submit_run now raw db h) as (h' & ->). cbn [fst snd].
  destruct (validate_output raw) as [[] name']; cbn [fst snd]; [|discriminate].
  destruct (extract raw) as [e'|m]; cbn [fst snd]; [discriminate|].
  intros [= <- <-] Hin. exists m. split; [reflexivity|]. split.
  - apply Hin. simpl. rewrite lookup_insert_eq. eauto.
  - intros e He Hn. apply Hin in He as (r & Hr & Ht & Hm).
    rewrite Hn, lookup_insert_eq in Hr. injection Hr as <-.
    destruct e. simpl in *. congruence.
Qed.

Lemma submitted_entry_on_leaderboard_witness :
  exists m,
    extract sample_report = inr m
    /\ Entry (str "alice") (str "2026-01-01T00:00:00+00:00") m
       ∈ leaderboard_data
           (fetchall (submitted (str "2026-01-01T00:00:00+00:00")
                        sample_report board)).
Proof.
  destruct (submitted_entry_on_leaderboard (str "2026-01-01T00:00:00+00:00")
              sample_report board [] (str "alice")
              (str "2026-01-01T00:00:00+00:00")
              (fetchall (submitted (str "2026-01-01T00:00:00+00:00")
                           sample_report board)))
    as (m & Hm & Hin & _).
  - vm_compute. reflexivity.
  - apply fetchall_query_result.
  - exists m. split; [exact Hm|exact Hin].
Defined.

(** ** What the validator and the extractor return *)

(** X12: a name the validator accepts is never empty and holds no
    whitespace; it is the token of a [LEADERBOARD_NAME:] field of the text,
    and the text has both markers. *)
Theorem validate_accepts_token raw name :
  validate_output raw = (true, name) ->
  occurs HEADER raw /\ occurs FOOTER raw
  /\ name <> [] /\ Forall (fun c => is_space c = false) name
  /\ exists n, field_at (str "LEADERBOARD_NAME:") n raw name
               /\ forall k tok, (k < n)%nat ->
                    ~ field_at (str "LEADERBOARD_NAME:") k raw tok.
Proof.
  unfold validate_output.
  destruct (contains HEADER raw) eqn:H1; cbn [negb]; [|discriminate].
  destruct (contains FOOTER raw) eqn:H2; cbn [negb]; [|discriminate].
  destruct (search name_re raw) as [g|] eqn:E; [|discriminate].
  intros [= <-]. apply contains_true in H1, H2.
  apply search_Some in E as (i & _ & Hi & Hlt).
  pose proof (proj1 (field_re_spec _ _ _ _) Hi) as Hf.
  split; [exact H1|]. split; [exact H2|].
  destruct Hf as (ws & rest & Hd & Hws & Hne & Htok & Hrest).
  split; [exact Hne|]. split; [exact Htok|].
  exists i. split; [exists ws, rest; auto|].
  intros k tok Hk Hf. apply field_re_spec in Hf.
  unfold name_re in Hlt. rewrite (Hlt k Hk) in Hf. discriminate.
Qed.

Lemma validate_accepts_token_witness :
  validate_output tight_name_report = (true, str "bob")
  /\ occurs HEADER tight_name_report /\ occurs FOOTER tight_name_report
  /\ exists n, field_at (str "LEADERBOARD_NAME:") n tight_name_report (str "bob").
Proof.
  assert (Hv : validate_output tight_name_report = (true, str "bob"))
    by (vm_compute; reflexivity).
  split; [exact Hv|].
  destruct (validate_accepts_token _ _ Hv) as (H1 & H2 & _ & _ & n & Hn & _).
  split; [exact H1|]. split; [exact H2|]. exists n. exact Hn.
Defined.

(** X13: the mapping the extractor returns has no key besides the seven
    metric names, and its keys come in groups: [overall] only with [PE1],
    [PE2] and [RS1e5]; [PE1] or [PE2] only with the three timing keys; and
    the three timing keys all together or not at all. *)
Theorem extract_keys raw m :
  extract raw = inr m ->
  (forall k, is_Some (m !! k) -> k ∈ metric_keys)
  /\ (is_Some (m !! "overall") ->
      is_Some (m !! "PE1") /\ is_Some (m !! "PE2") /\ is_Some (m !! "RS1e5"))
  /\ (is_Some (m !! "PE1") \/ is_Some (m !! "PE2") -> is_Some (m !! "T_2M_64"))
  /\ (is_Some (m !! "T_2M_64") <-> is_Some (m !! "T_2M_128"))
  /\ (is_Some (m !! "T_2M_128") <-> is_Some (m !! "T_2M_256")).
Proof.
  intros Hm. apply extract_inr in Hm. subst m.
  set (serial := found (serial_scan raw)). set (scale := found (scale_scan raw)).
  split; [|split; [|split]].
  - intros k [v Hv].
    destruct (decide (k ∈ metric_keys)) as [|Hk]; [assumption|exfalso].
    unfold metric_keys in Hk. rewrite !not_elem_of_cons in Hk.
    destruct Hk as (? & ? & ? & ? & ? & ? & ? & _).
    unfold metrics_of in Hv.
    rewrite overall_stage_lookup_ne, record_scale_lookup_ne,
      record_serial_lookup_ne, lookup_empty in Hv;
      [discriminate|assumption| |assumption].
    unfold scale_keys. rewrite !not_elem_of_cons. repeat split; try assumption.
    apply not_elem_of_nil.
  - pose proof (metrics_of_overall serial scale) as Ho. simpl in Ho. rewrite Ho.
    intros [v Hv]. repeat case_match; try discriminate. eauto.
  - destruct scale as [|t64 [|t128 [|t256 rest]]] eqn:E.
    1-3: intros [[v Hv]|[v Hv]];
           rewrite metrics_of_short in Hv; try discriminate;
           try (simpl; lia); unfold scale_keys; set_solver.
    intros _. destruct (metrics_of_T_2M serial rest t64 t128 t256) as (-> & _).
    eauto.
  - destruct scale as [|t64 [|t128 [|t256 rest]]] eqn:E.
    1-3: rewrite !metrics_of_short by
           (try (simpl; lia); unfold scale_keys; set_solver);
         split; split; intros [v Hv]; discriminate.
    destruct (metrics_of_T_2M serial rest t64 t128 t256) as (-> & -> & ->).
    split; split; eauto.
Qed.

Lemma extract_keys_witness :
  exists m,
    extract sample_report = inr m
    /\ forall k, is_Some (m !! k) -> k ∈ metric_keys.
Proof.
  destruct (extract sample_report) as [e|m] eqn:Hm;
    [vm_compute in Hm; discriminate|].
  exists m. split; [reflexivity|].
  exact (proj1 (extract_keys sample_report m Hm)).
Defined.

(** ** When the extractor raises *)

(** X14: the extractor raises exactly when a timing token of the serial
    section or of the scaling section is not a float literal, and the
    exception is then [ValueError]; tokens outside the two sections are
    never converted. *)
Theorem extract_raises_iff raw e :
  extract raw = inl e
  <-> e = ValueError
      /\ (bad_token "SERIAL" raw \/ bad_token "SCALE_2M" raw).
Proof.
  rewrite <- !section_scan_raises. fold serial_scan scale_scan.
  rewrite extract_scans. split.
  - intros H.
    destruct (serial_scan raw) as [[e1|ts]|] eqn:S1;
      destruct (scale_scan raw) as [[e2|tc]|] eqn:S2;
      try discriminate; injection H as <-;
      try (pose proof (section_scan_exn _ _ _ S1) as ->);
      try (pose proof (section_scan_exn _ _ _ S2) as ->); auto.
  - intros (-> & [->| ->]); [reflexivity|].
    destruct (serial_scan raw) as [[e1|ts]|] eqn:S1; try reflexivity.
    rewrite (section_scan_exn _ _ _ S1). reflexivity.
Qed.

Lemma extract_raises_iff_witness :
  bad_token "SERIAL" malformed_report
  /\ extract malformed_report = inl ValueError.
Proof.
  assert (Hb : bad_token "SERIAL" malformed_report).
  { exists (line "Simulation Time = 1.2.3 seconds"), (str "1.2.3").
    split; [vm_compute; reflexivity|].
    split; [|vm_compute; reflexivity].
    replace (findall time_re (line "Simulation Time = 1.2.3 seconds"))
      with [str "1.2.3"] by (vm_compute; reflexivity).
    left. }
  split; [exact Hb|].
  apply (proj2 (extract_raises_iff malformed_report ValueError)). auto.
Defined.
